(** * Verification of the Quantum Chemistry Simulator

    The development embeds the TypeScript sources of the web client
    (element tables and basis-set support, the molecule builder, the
    polling hooks and the simulation page) and the job lifecycle of the
    orchestration layer, and proves the properties stated for them.

    JavaScript values are modelled as follows: a [number] that holds a
    count, an index or an atomic number is an integer ([Z] or [nat] for
    array indices); a [number] that holds a coordinate, an energy or a
    step size is an IEEE-754 binary64 [float]; strings are [string];
    an optional field [f?] is an [option]; a call that may throw returns
    a [completion]. *)

From Stdlib Require Import ZArith String Ascii List Bool Lia.
From Stdlib Require Import Floats.PrimFloat.
From stdpp Require Import base strings list gmap.

Local Set Warnings "-inexact-float".
Local Open Scope Z_scope.
Local Open Scope string_scope.

(** ** JavaScript completions *)

Module Js.

Inductive error : Type :=
  | TypeError (message : string)
  | Error (message : string).

(** The outcome of evaluating a call: it returns normally or throws. *)
Inductive completion (A : Type) : Type :=
  | Return (a : A)
  | Throw (e : error).
Arguments Return {A} a.
Arguments Throw {A} e.

Definition bind {A B} (c : completion A) (k : A -> completion B) : completion B :=
  match c with
  | Return a => k a
  | Throw e => Throw e
  end.

Definition returns {A} (c : completion A) : Prop := exists a, c = Return a.

(** [String.prototype.toLowerCase] on the ASCII letters.  Outside ASCII
    only U+212A (Kelvin sign) and U+0130 have a lower-case form with an
    ASCII letter (k and i); neither letter occurs in a key looked up
    below, so the restriction does not change any lookup. *)
Definition toLowerCase_ascii (c : ascii) : ascii :=
  let n := N_of_ascii c in
  if ((65 <=? n) && (n <=? 90))%N then ascii_of_N (n + 32) else c.

Fixpoint toLowerCase (s : string) : string :=
  match s with
  | EmptyString => EmptyString
  | String c r => String (toLowerCase_ascii c) (toLowerCase r)
  end.

(** ASCII upper-case letters, and strings that contain one. *)
Definition is_upper (c : ascii) : bool :=
  let n := N_of_ascii c in ((65 <=? n) && (n <=? 90))%N.

Fixpoint has_upper (s : string) : bool :=
  match s with
  | EmptyString => false
  | String c r => is_upper c || has_upper r
  end.

(** [Array.prototype.filter] with the two-argument callback
    [(element, index) => ...]. *)
Fixpoint filter_from {A} (k : nat) (f : A -> nat -> bool) (l : list A) : list A :=
  match l with
  | [] => []
  | x :: r => if f x k then x :: filter_from (S k) f r else filter_from (S k) f r
  end.

Definition filter_index {A} (f : A -> nat -> bool) (l : list A) : list A :=
  filter_from 0 f l.

(** [Array.prototype.filter] with a callback that may throw: the
    callback runs on the elements in order and the first exception
    ends the call. *)
Fixpoint filterM {A} (f : A -> completion bool) (l : list A) : completion (list A) :=
  match l with
  | [] => Return []
  | x :: r =>
      bind (f x) (fun keep =>
      bind (filterM f r) (fun rest =>
      Return (if keep then x :: rest else rest)))
  end.

(** [[...new Set(l)]]: a [Set] keeps the first occurrence of each value,
    in insertion order. *)
Definition Set_values {A} `{EqDecision A} (l : list A) : list A :=
  foldl (fun acc x => if bool_decide (x ∈ acc) then acc else (acc ++ [x])%list) [] l.

(** [Array.prototype.join]. *)
Fixpoint join (sep : string) (l : list string) : string :=
  match l with
  | [] => EmptyString
  | [x] => x
  | x :: r => (x ++ sep ++ join sep r)%string
  end.

(** [String.prototype.toUpperCase] on the ASCII letters. *)
Definition toUpperCase_ascii (c : ascii) : ascii :=
  let n := N_of_ascii c in
  if ((97 <=? n) && (n <=? 122))%N then ascii_of_N (n - 32) else c.

(** [a || b] on strings: the empty string and [undefined] are falsy. *)
Definition or_string (a : option string) (b : string) : string :=
  match a with
  | Some EmptyString | None => b
  | Some s => s
  end.

(** [parseInt(text) || d]: [parseInt] yields an integer or NaN (here
    [None]); NaN and 0 are falsy. *)
Definition or_default (parsed : option Z) (d : Z) : Z :=
  match parsed with
  | Some n => if (n =? 0)%Z then d else n
  | None => d
  end.

End Js.

#[global] Instance completion_bind : MBind Js.completion :=
  fun A B k c => Js.bind c k.

(** ** Type definitions ([types/index.ts]) *)

Module Atom.
Record t := mk {
    symbol : string;
    position : float * float * float
}.
End Atom.
Definition Atom := Atom.t.

Module Molecule.
Record t := mk {
    name : string;
    atoms : list Atom;
    charge : Z;
    multiplicity : Z;
    basis_set : string
}.
End Molecule.
Definition Molecule := Molecule.t.

Module VQEConfig.
Record t := mk {
    step_size : float;
    num_steps : Z;
    convergence_threshold : option float
}.
End VQEConfig.
Definition VQEConfig := VQEConfig.t.

Module SQDConfig.
Record t := mk {
    samples_per_batch : Z;
    max_iterations : Z;
    num_batches : Z;
    num_shots : Z;
    use_hardware : bool;
    ibm_api_key : option string
}.
End SQDConfig.
Definition SQDConfig := SQDConfig.t.

(** The union type ['vqe' | 'sqd']. *)
Inductive Method : Type := vqe | sqd.

Definition Method_eqb (a b : Method) : bool :=
  match a, b with
  | vqe, vqe | sqd, sqd => true
  | _, _ => false
  end.

Module SimulationRequest.
Record t := mk {
    molecule : Molecule;
    method : Method;
    vqe_config : option VQEConfig;
    sqd_config : option SQDConfig
}.
End SimulationRequest.
Definition SimulationRequest := SimulationRequest.t.

(** The union type of job statuses. *)
Inductive JobStatus : Type := pending | running | completed | failed | cancelled.

Module SimulationResult.
Record t := mk {
    energy_hartree : float;
    energy_ev : float;
    mapping : option string;
    converged : bool;
    num_iterations : Z;
    execution_time_seconds : float
    (* [metadata?: Record<string, unknown>] is opaque and never read. *)
}.
End SimulationResult.
Definition SimulationResult := SimulationResult.t.

Module Job.
Record t := mk {
    id : string;
    status : JobStatus;
    method : string;
    molecule_name : string;
    created_at : string;
    started_at : option string;
    completed_at : option string;
    progress : Z;
    current_step : string;
    result_energy : option float;
    energy_history : option (list float);
    error_message : option string;
    result : option SimulationResult
}.
End Job.
Definition Job := Job.t.

Module CreateJobResponse.
Record t := mk {
    message : string;
    job_id : string;
    status : JobStatus;
    status_url : string
}.
End CreateJobResponse.
Definition CreateJobResponse := CreateJobResponse.t.

(** [recommended_method] is declared mandatory, but [handleValidate]
    tests it for truthiness before use, so an absent value is kept
    representable. *)
Module ValidationResponse.
Record t := mk {
    valid : bool;
    molecule_name : string;
    num_atoms : Z;
    num_electrons : Z;
    num_qubits_required : Z;
    estimated_vqe_time_seconds : option float;
    estimated_sqd_time_seconds : option float;
    warnings : list string;
    recommended_method : option Method
}.
End ValidationResponse.
Definition ValidationResponse := ValidationResponse.t.

Module Element.
Record t := mk {
    atomic_number : Z;
    symbol : string;
    name : string
}.
End Element.
Definition Element := Element.t.

(** ** Elements and basis-set support ([utils/elements.ts]) *)

Module Elements.
Import Js.

(** Full periodic table (Z 1-118). *)
Definition ALL_ELEMENTS : list Element :=
  let mk := Element.mk in [
    mk 1 "H" "Hydrogen";
    mk 2 "He" "Helium";
    mk 3 "Li" "Lithium";
    mk 4 "Be" "Beryllium";
    mk 5 "B" "Boron";
    mk 6 "C" "Carbon";
    mk 7 "N" "Nitrogen";
    mk 8 "O" "Oxygen";
    mk 9 "F" "Fluorine";
    mk 10 "Ne" "Neon";
    mk 11 "Na" "Sodium";
    mk 12 "Mg" "Magnesium";
    mk 13 "Al" "Aluminum";
    mk 14 "Si" "Silicon";
    mk 15 "P" "Phosphorus";
    mk 16 "S" "Sulfur";
    mk 17 "Cl" "Chlorine";
    mk 18 "Ar" "Argon";
    mk 19 "K" "Potassium";
    mk 20 "Ca" "Calcium";
    mk 21 "Sc" "Scandium";
    mk 22 "Ti" "Titanium";
    mk 23 "V" "Vanadium";
    mk 24 "Cr" "Chromium";
    mk 25 "Mn" "Manganese";
    mk 26 "Fe" "Iron";
    mk 27 "Co" "Cobalt";
    mk 28 "Ni" "Nickel";
    mk 29 "Cu" "Copper";
    mk 30 "Zn" "Zinc";
    mk 31 "Ga" "Gallium";
    mk 32 "Ge" "Germanium";
    mk 33 "As" "Arsenic";
    mk 34 "Se" "Selenium";
    mk 35 "Br" "Bromine";
    mk 36 "Kr" "Krypton";
    mk 37 "Rb" "Rubidium";
    mk 38 "Sr" "Strontium";
    mk 39 "Y" "Yttrium";
    mk 40 "Zr" "Zirconium";
    mk 41 "Nb" "Niobium";
    mk 42 "Mo" "Molybdenum";
    mk 43 "Tc" "Technetium";
    mk 44 "Ru" "Ruthenium";
    mk 45 "Rh" "Rhodium";
    mk 46 "Pd" "Palladium";
    mk 47 "Ag" "Silver";
    mk 48 "Cd" "Cadmium";
    mk 49 "In" "Indium";
    mk 50 "Sn" "Tin";
    mk 51 "Sb" "Antimony";
    mk 52 "Te" "Tellurium";
    mk 53 "I" "Iodine";
    mk 54 "Xe" "Xenon";
    mk 55 "Cs" "Cesium";
    mk 56 "Ba" "Barium";
    mk 57 "La" "Lanthanum";
    mk 58 "Ce" "Cerium";
    mk 59 "Pr" "Praseodymium";
    mk 60 "Nd" "Neodymium";
    mk 61 "Pm" "Promethium";
    mk 62 "Sm" "Samarium";
    mk 63 "Eu" "Europium";
    mk 64 "Gd" "Gadolinium";
    mk 65 "Tb" "Terbium";
    mk 66 "Dy" "Dysprosium";
    mk 67 "Ho" "Holmium";
    mk 68 "Er" "Erbium";
    mk 69 "Tm" "Thulium";
    mk 70 "Yb" "Ytterbium";
    mk 71 "Lu" "Lutetium";
    mk 72 "Hf" "Hafnium";
    mk 73 "Ta" "Tantalum";
    mk 74 "W" "Tungsten";
    mk 75 "Re" "Rhenium";
    mk 76 "Os" "Osmium";
    mk 77 "Ir" "Iridium";
    mk 78 "Pt" "Platinum";
    mk 79 "Au" "Gold";
    mk 80 "Hg" "Mercury";
    mk 81 "Tl" "Thallium";
    mk 82 "Pb" "Lead";
    mk 83 "Bi" "Bismuth";
    mk 84 "Po" "Polonium";
    mk 85 "At" "Astatine";
    mk 86 "Rn" "Radon";
    mk 87 "Fr" "Francium";
    mk 88 "Ra" "Radium";
    mk 89 "Ac" "Actinium";
    mk 90 "Th" "Thorium";
    mk 91 "Pa" "Protactinium";
    mk 92 "U" "Uranium";
    mk 93 "Np" "Neptunium";
    mk 94 "Pu" "Plutonium";
    mk 95 "Am" "Americium";
    mk 96 "Cm" "Curium";
    mk 97 "Bk" "Berkelium";
    mk 98 "Cf" "Californium";
    mk 99 "Es" "Einsteinium";
    mk 100 "Fm" "Fermium";
    mk 101 "Md" "Mendelevium";
    mk 102 "No" "Nobelium";
    mk 103 "Lr" "Lawrencium";
    mk 104 "Rf" "Rutherfordium";
    mk 105 "Db" "Dubnium";
    mk 106 "Sg" "Seaborgium";
    mk 107 "Bh" "Bohrium";
    mk 108 "Hs" "Hassium";
    mk 109 "Mt" "Meitnerium";
    mk 110 "Ds" "Darmstadtium";
    mk 111 "Rg" "Roentgenium";
    mk 112 "Cn" "Copernicium";
    mk 113 "Nh" "Nihonium";
    mk 114 "Fl" "Flerovium";
    mk 115 "Mc" "Moscovium";
    mk 116 "Lv" "Livermorium";
    mk 117 "Ts" "Tennessine";
    mk 118 "Og" "Oganesson"
  ].

(** Basis-set: supported atomic-number ranges. *)
Definition Range : Type := Z * Z.

(** The own properties of the object literal [BASIS_SET_RANGES]. *)
Definition BASIS_SET_RANGES : gmap string (list Range) :=
  list_to_map [
    ("sto-3g",     [(1, 54)]);
    ("sto-6g",     [(1, 54)]);
    ("3-21g",      [(1, 55)]);
    ("6-31g",      [(1, 36)]);
    ("6-31g*",     [(1, 36)]);
    ("cc-pvdz",    [(1, 18); (20, 36)]);
    ("cc-pvtz",    [(1, 18); (20, 36)]);
    ("def2-svp",   [(1, 86)]);
    ("def2-tzvp",  [(1, 86)]);
    ("dyall-ae4z", [(1, 118)])
  ].

(** What the property access [BASIS_SET_RANGES[key]] can evaluate to. *)
Inductive value : Type :=
  | Undefined
  | RangeArray (ranges : list Range)
  | Function (name : string)
  | Object (name : string).

(** [BASIS_SET_RANGES] is written as an object literal, so its prototype
    is [Object.prototype]: a key that is not an own property is looked
    up there before the access yields [undefined]. *)
Definition Object_prototype (key : string) : value :=
  if bool_decide (key = "__proto__") then Object "Object.prototype"
  else if bool_decide (key ∈ [
       "constructor"; "hasOwnProperty"; "isPrototypeOf";
       "propertyIsEnumerable"; "toLocaleString"; "toString"; "valueOf";
       "__defineGetter__"; "__defineSetter__";
       "__lookupGetter__"; "__lookupSetter__"])
  then Function key
  else Undefined.

Definition get (own : gmap string (list Range)) (key : string) : value :=
  match own !! key with
  | Some ranges => RangeArray ranges
  | None => Object_prototype key
  end.

(** [!v]: only [undefined] is falsy among the values above. *)
Definition falsy (v : value) : bool :=
  match v with
  | Undefined => true
  | _ => false
  end.

(** The inner loop [for (let z = lo; z <= hi; z++) s.add(z)]. *)
Definition add_range (s : gset Z) (r : Range) : gset Z :=
  let '(lo, hi) := r in
  foldl (fun acc z => {[ z ]} ∪ acc) s (seqZ lo (hi - lo + 1)).

(** The loop [for (const [lo, hi] of ranges)]: arrays are iterable,
    functions and plain objects are not. *)
Definition for_of_ranges (v : value) (s : gset Z) : completion (gset Z) :=
  match v with
  | RangeArray ranges => Return (foldl add_range s ranges)
  | _ => Throw (TypeError "ranges is not iterable")
  end.

(** Return the set of supported atomic numbers for a given basis set key. *)
Definition supportedZSet (basisSet : string) : completion (gset Z) :=
  let ranges := get BASIS_SET_RANGES (toLowerCase basisSet) in
  if falsy ranges
  then Return (list_to_set (map Element.atomic_number ALL_ELEMENTS))
  else for_of_ranges ranges ∅.

(** Filter the full periodic table down to elements supported by basisSet. *)
Definition getElementsForBasisSet (basisSet : string) : completion (list Element) :=
  allowed ← supportedZSet basisSet;
  Return (List.filter (fun e => bool_decide (Element.atomic_number e ∈ allowed))
                      ALL_ELEMENTS).

(** Check whether a single element symbol is valid for a basis set. *)
Definition isElementSupported (symbol basisSet : string) : completion bool :=
  match List.find (fun e => bool_decide (Element.symbol e = symbol)) ALL_ELEMENTS with
  | None => Return false
  | Some el =>
      allowed ← supportedZSet basisSet;
      Return (bool_decide (Element.atomic_number el ∈ allowed))
  end.

End Elements.

(** ** Reusable button ([components/common/Button.tsx]) *)

Module Button.

(** The [disabled] attribute of the rendered [<button>]. *)
Definition disabled (disabled loading : bool) : bool := disabled || loading.

(** A click on the rendered element: a disabled [<button>] dispatches
    no click event, so [onClick] does not run. *)
Definition click {S : Type} (disabled_prop loading : bool) (onClick : S -> S) (s : S) : S :=
  if disabled disabled_prop loading then s else onClick s.

End Button.

(** ** Dropdown entries (the [{ value, label }] objects handed to
       [Select] as [options]) *)

Module SelectOption.
Record t := mk {
    value : string;
    label : string
}.
End SelectOption.
Definition SelectOption := SelectOption.t.

(** ** Molecule builder ([components/molecules/MoleculeBuilder.tsx],
       [components/molecules/AtomInput.tsx])

    The component is controlled: [molecule] is the prop of the current
    render and [onChange] replaces it, so each handler is a function from
    the current molecule to the next one. *)

Module MoleculeBuilder.

Definition DEFAULT_ATOM : Atom := Atom.mk "H" (0, 0, 0)%float.

(** The object spread [{ ...molecule, atoms: newAtoms }]. *)
Definition with_atoms (molecule : Molecule) (newAtoms : list Atom) : Molecule :=
  Molecule.mk (Molecule.name molecule) newAtoms (Molecule.charge molecule)
              (Molecule.multiplicity molecule) (Molecule.basis_set molecule).

(** [newAtoms[index] = atom] on a copy of the array.  [index] is the
    index of a rendered row and so in range; see [ui_event]. *)
Definition handleAtomChange (molecule : Molecule) (index : nat) (atom : Atom) : Molecule :=
  with_atoms molecule (<[index := atom]> (Molecule.atoms molecule)).

Definition handleAddAtom (molecule : Molecule) : Molecule :=
  with_atoms molecule (Molecule.atoms molecule ++ [DEFAULT_ATOM]).

Definition handleRemoveAtom (molecule : Molecule) (index : nat) : Molecule :=
  with_atoms molecule
    (Js.filter_index (fun _ i => negb (i =? index)%nat) (Molecule.atoms molecule)).

(** The prop [canRemove={molecule.atoms.length > 1}] passed to every row. *)
Definition canRemove (molecule : Molecule) : bool :=
  (1 <? length (Molecule.atoms molecule))%nat.

(** The controls of the atoms card that change the atoms array. *)
Inductive event : Type :=
  | AddAtom
  | RemoveAtom (index : nat)
  | ChangeAtom (index : nat) (atom : Atom).

(** One user action.  A row exists for each index below the length of
    the array (the rows come from [molecule.atoms.map]); an event that
    names another index corresponds to no control and changes nothing.
    The remove button of a row is rendered with [disabled={!canRemove}]. *)
Definition ui_event (molecule : Molecule) (e : event) : Molecule :=
  match e with
  | AddAtom => Button.click false false handleAddAtom molecule
  | RemoveAtom index =>
      if (index <? length (Molecule.atoms molecule))%nat
      then Button.click (negb (canRemove molecule)) false
                        (fun m => handleRemoveAtom m index) molecule
      else molecule
  | ChangeAtom index atom =>
      if (index <? length (Molecule.atoms molecule))%nat
      then handleAtomChange molecule index atom
      else molecule
  end.

Definition ui_events (molecule : Molecule) (es : list event) : Molecule :=
  foldl ui_event molecule es.


(** The basis sets offered by the selector. *)
Definition BASIS_SETS : list SelectOption :=
  let mk := SelectOption.mk in [
    mk "sto-3g" "STO-3G (Minimal)";
    mk "dyall-ae4z" "dyall-AE4Z (Production)";
    mk "sto-6g" "STO-6G";
    mk "3-21g" "3-21G";
    mk "6-31g" "6-31G";
    mk "6-31g*" "6-31G*";
    mk "cc-pvdz" "cc-pVDZ";
    mk "cc-pvtz" "cc-pVTZ";
    mk "def2-svp" "def2-SVP (Production Alternate 1)";
    mk "def2-tzvp" "def2-TZVP (Production Alternate 2)"
  ].

(** Collect symbols that are invalid for the current basis set. *)
Definition invalidAtoms (molecule : Molecule) : Js.completion (list Atom) :=
  Js.filterM
    (fun atom =>
       supported ← Elements.isElementSupported (Atom.symbol atom) (Molecule.basis_set molecule);
       Js.Return (negb supported))
    (Molecule.atoms molecule).

(** The banner is rendered when [invalidAtoms.length > 0]. *)
Definition bannerShown (molecule : Molecule) : Js.completion bool :=
  invalid ← invalidAtoms molecule;
  Js.Return (0 <? length invalid)%nat.

(** The symbols named by the banner,
    [[...new Set(invalidAtoms.map((a) => a.symbol))]], and their
    rendering with [join(', ')]. *)
Definition bannerSymbols (molecule : Molecule) : Js.completion (list string) :=
  invalid ← invalidAtoms molecule;
  Js.Return (Js.Set_values (map Atom.symbol invalid)).

Definition bannerText (molecule : Molecule) : Js.completion string :=
  symbols ← bannerSymbols molecule;
  Js.Return (Js.join ", " symbols).

(** The object spread [{ ...molecule, basis_set: e.target.value }] of
    the basis-set selector. *)
Definition handleBasisSetChange (molecule : Molecule) (value : string) : Molecule :=
  Molecule.mk (Molecule.name molecule) (Molecule.atoms molecule) (Molecule.charge molecule)
              (Molecule.multiplicity molecule) value.

(** [{ ...molecule, name: e.target.value }]. *)
Definition handleNameChange (molecule : Molecule) (value : string) : Molecule :=
  Molecule.mk value (Molecule.atoms molecule) (Molecule.charge molecule)
              (Molecule.multiplicity molecule) (Molecule.basis_set molecule).

(** [{ ...molecule, charge: parseInt(e.target.value) || 0 }]. *)
Definition handleChargeChange (molecule : Molecule) (parsed : option Z) : Molecule :=
  Molecule.mk (Molecule.name molecule) (Molecule.atoms molecule) (Js.or_default parsed 0)
              (Molecule.multiplicity molecule) (Molecule.basis_set molecule).

(** [{ ...molecule, multiplicity: parseInt(e.target.value) || 1 }]. *)
Definition handleMultiplicityChange (molecule : Molecule) (parsed : option Z) : Molecule :=
  Molecule.mk (Molecule.name molecule) (Molecule.atoms molecule) (Molecule.charge molecule)
              (Js.or_default parsed 1) (Molecule.basis_set molecule).

(** The controls of the manual input.  A numeric input carries what
    [parseInt] makes of the text typed. *)
Inductive edit : Type :=
  | TypeName (value : string)
  | SelectBasisSet (value : string)
  | Atoms (e : event)
  | TypeCharge (parsed : option Z)
  | TypeMultiplicity (parsed : option Z).

(** One user action on the manual input.  The basis-set selector is
    rendered with [options={BASIS_SETS}], so the value it reports is the
    value of one of these options; a value outside them corresponds to no
    choice and changes nothing. *)
Definition builder_edit (molecule : Molecule) (e : edit) : Molecule :=
  match e with
  | TypeName value => handleNameChange molecule value
  | SelectBasisSet value =>
      if bool_decide (value ∈ map SelectOption.value BASIS_SETS)
      then handleBasisSetChange molecule value
      else molecule
  | Atoms e => ui_event molecule e
  | TypeCharge parsed => handleChargeChange molecule parsed
  | TypeMultiplicity parsed => handleMultiplicityChange molecule parsed
  end.

Definition builder_edits (molecule : Molecule) (es : list edit) : Molecule :=
  foldl builder_edit molecule es.

End MoleculeBuilder.

(** ** Atom row ([components/molecules/AtomInput.tsx]) *)

Module AtomInput.
Import Js.

(** Build dropdown options from the basis-set filter. *)
Definition elementOptions (basisSet : string) : completion (list SelectOption) :=
  supportedElements ← Elements.getElementsForBasisSet basisSet;
  Return (map (fun el => SelectOption.mk (Element.symbol el)
                           (Element.symbol el ++ " - " ++ Element.name el)%string)
              supportedElements).

(** Is the current symbol valid for this basis set? *)
Definition symbolValid (atom : Atom) (basisSet : string) : completion bool :=
  Elements.isElementSupported (Atom.symbol atom) basisSet.

(** The [value] prop of the element selector. *)
Definition selectValue (atom : Atom) (basisSet : string) : completion string :=
  valid ← symbolValid atom basisSet;
  Return (if valid : bool then Atom.symbol atom else EmptyString).

(** The arguments [(index, atom)] that [handleSymbolChange] passes to
    [onChange]. *)
Definition handleSymbolChange (atom : Atom) (index : nat) (value : string) : nat * Atom :=
  (index, Atom.mk value (Atom.position atom)).

(** The axis argument, of type [0 | 1 | 2]. *)
Inductive Axis : Type := axis0 | axis1 | axis2.

(** [position[axis]]. *)
Definition coordinate (axis : Axis) (position : float * float * float) : float :=
  let '(x, y, z) := position in
  match axis with
  | axis0 => x
  | axis1 => y
  | axis2 => z
  end.

(** [newPosition[axis] = v] on a copy of the triple. *)
Definition set_coordinate (axis : Axis) (v : float) (position : float * float * float)
    : float * float * float :=
  let '(x, y, z) := position in
  match axis with
  | axis0 => (v, y, z)
  | axis1 => (x, v, z)
  | axis2 => (x, y, v)
  end.

(** A number is falsy when it is NaN, 0 or -0. *)
Definition falsy_number (x : float) : bool := is_nan x || is_zero x.

Section PositionChange.

(** The built-in [parseFloat]. *)
Variable parseFloat : string -> float.

(** The arguments [(index, atom)] that [handlePositionChange] passes to
    [onChange]; the new coordinate is [parseFloat(value) || 0]. *)
Definition handlePositionChange (atom : Atom) (index : nat) (axis : Axis) (value : string)
    : nat * Atom :=
  let parsed := parseFloat value in
  let v := if falsy_number parsed then 0%float else parsed in
  (index, Atom.mk (Atom.symbol atom) (set_coordinate axis v (Atom.position atom))).

End PositionChange.

End AtomInput.

(** ** Simulation settings ([components/simulation/SimulationConfig.tsx]) *)

Module SimulationConfig.

(** The values the [onChange] and [onClick] handlers of the VQE card
    pass to [onVqeConfigChange]. *)
Definition withStepSize (parsed : float) (c : VQEConfig) : VQEConfig :=
  VQEConfig.mk (if AtomInput.falsy_number parsed then 0.2%float else parsed)
               (VQEConfig.num_steps c) (VQEConfig.convergence_threshold c).

Definition withNumSteps (parsed : option Z) (c : VQEConfig) : VQEConfig :=
  VQEConfig.mk (VQEConfig.step_size c) (Js.or_default parsed 200)
               (VQEConfig.convergence_threshold c).

(** The values the handlers of the SQD cards pass to
    [onSqdConfigChange]. *)
Definition chooseSimulate (c : SQDConfig) : SQDConfig :=
  SQDConfig.mk (SQDConfig.samples_per_batch c) (SQDConfig.max_iterations c)
               (SQDConfig.num_batches c) (SQDConfig.num_shots c)
               false (Some EmptyString).

Definition chooseHardware (c : SQDConfig) : SQDConfig :=
  SQDConfig.mk (SQDConfig.samples_per_batch c) (SQDConfig.max_iterations c)
               (SQDConfig.num_batches c) (SQDConfig.num_shots c)
               true (SQDConfig.ibm_api_key c).

Definition withApiKey (value : string) (c : SQDConfig) : SQDConfig :=
  SQDConfig.mk (SQDConfig.samples_per_batch c) (SQDConfig.max_iterations c)
               (SQDConfig.num_batches c) (SQDConfig.num_shots c)
               (SQDConfig.use_hardware c) (Some value).

Definition withSamplesPerBatch (parsed : option Z) (c : SQDConfig) : SQDConfig :=
  SQDConfig.mk (Js.or_default parsed 500) (SQDConfig.max_iterations c)
               (SQDConfig.num_batches c) (SQDConfig.num_shots c)
               (SQDConfig.use_hardware c) (SQDConfig.ibm_api_key c).

Definition withMaxIterations (parsed : option Z) (c : SQDConfig) : SQDConfig :=
  SQDConfig.mk (SQDConfig.samples_per_batch c) (Js.or_default parsed 100)
               (SQDConfig.num_batches c) (SQDConfig.num_shots c)
               (SQDConfig.use_hardware c) (SQDConfig.ibm_api_key c).

Definition withNumBatches (parsed : option Z) (c : SQDConfig) : SQDConfig :=
  SQDConfig.mk (SQDConfig.samples_per_batch c) (SQDConfig.max_iterations c)
               (Js.or_default parsed 5) (SQDConfig.num_shots c)
               (SQDConfig.use_hardware c) (SQDConfig.ibm_api_key c).

Definition withNumShots (parsed : option Z) (c : SQDConfig) : SQDConfig :=
  SQDConfig.mk (SQDConfig.samples_per_batch c) (SQDConfig.max_iterations c)
               (SQDConfig.num_batches c) (Js.or_default parsed 10000)
               (SQDConfig.use_hardware c) (SQDConfig.ibm_api_key c).

(** The controls of the component.  A numeric input carries what
    [parseFloat] or [parseInt] makes of the text typed. *)
Inductive event : Type :=
  | ClickMethod (m : Method)
  | TypeStepSize (parsed : float)
  | TypeNumSteps (parsed : option Z)
  | ClickSimulate
  | ClickHardware
  | TypeApiKey (value : string)
  | TypeSamplesPerBatch (parsed : option Z)
  | TypeMaxIterations (parsed : option Z)
  | TypeNumBatches (parsed : option Z)
  | TypeNumShots (parsed : option Z).

End SimulationConfig.

(** ** API client ([api/client.ts]) *)

Module apiClient.

(** The message of the [Error] the response interceptor rejects with:
    [error.response?.data?.error || error.message || 'An error occurred'],
    where the first operand is [undefined] when the response, its body
    or the field is absent. *)
Definition interceptor_message (response_error : option string) (message : string) : string :=
  Js.or_string (Some (Js.or_string response_error message)) "An error occurred".

End apiClient.

(** ** Formatting ([utils/format.ts]) *)

(** The string literals of the union type [JobStatus]. *)
Definition JobStatus_string (s : JobStatus) : string :=
  match s with
  | pending => "pending"
  | running => "running"
  | completed => "completed"
  | failed => "failed"
  | cancelled => "cancelled"
  end.

Module Format.

(** Format job status with proper capitalization:
    [status.charAt(0).toUpperCase() + status.slice(1)]. *)
Definition formatStatus (status : string) : string :=
  match status with
  | EmptyString => EmptyString
  | String c rest => String (Js.toUpperCase_ascii c) rest
  end.

(** The table [colors] of [getStatusColor]: its own properties. *)
Definition colors : gmap string string :=
  list_to_map [
    ("pending",   "text-yellow-600 bg-yellow-100");
    ("running",   "text-blue-600 bg-blue-100");
    ("completed", "text-green-600 bg-green-100");
    ("failed",    "text-red-600 bg-red-100");
    ("cancelled", "text-gray-600 bg-gray-100")
  ].

(** What [getStatusColor] evaluates to: a class string, or a property
    inherited from [Object.prototype] by the object literal [colors]. *)
Inductive color : Type :=
  | ClassName (classes : string)
  | Inherited (v : Elements.value).

(** Get status color for Tailwind CSS:
    [colors[status] || 'text-gray-600 bg-gray-100'].  The class strings
    of the table are not empty, hence truthy, and so are the inherited
    functions and objects. *)
Definition getStatusColor (status : string) : color :=
  match colors !! status with
  | Some classes => ClassName (Js.or_string (Some classes) "text-gray-600 bg-gray-100")
  | None =>
      match Elements.Object_prototype status with
      | Elements.Undefined => ClassName "text-gray-600 bg-gray-100"
      | v => Inherited v
      end
  end.

End Format.

(** ** Polling ([components/simulation/JobStatus.tsx], [hooks/useSimulation.ts]) *)

Definition JobStatus_eqb (a b : JobStatus) : bool :=
  match a, b with
  | pending, pending | running, running | completed, completed
  | failed, failed | cancelled, cancelled => true
  | _, _ => false
  end.

(** The result of a [refetchInterval] callback: [false] or a number of
    milliseconds. *)
Inductive RefetchInterval : Type :=
  | NoRefetch
  | EveryMs (ms : Z).

(** [job?.status === s], where [job] is [query.state.data] and is
    [undefined] until the first fetch succeeds. *)
Definition status_is (job : option Job) (s : JobStatus) : bool :=
  match job with
  | Some j => JobStatus_eqb (Job.status j) s
  | None => false
  end.

Module JobStatusComponent.

Definition refetchInterval (data : option Job) : RefetchInterval :=
  let job := data in
  if status_is job completed || status_is job failed || status_is job cancelled
  then NoRefetch
  else EveryMs 2000.

End JobStatusComponent.

Module useSimulation.

Definition refetchInterval (data : option Job) : RefetchInterval :=
  let job := data in
  if status_is job completed || status_is job failed
  then NoRefetch
  else EveryMs 2000.

End useSimulation.

(** ** Job status card ([components/simulation/JobStatus.tsx]):
       what is rendered for a fetched job *)

Module JobStatusView.



End JobStatusView.

(** ** Results ([components/simulation/EnergyChart.tsx],
       [components/simulation/ResultsDisplay.tsx]) *)

Module EnergyChart.

(** The chart is replaced by the text "No energy history data
    available" when [!energyHistory || energyHistory.length === 0]. *)
Definition placeholder (energyHistory : option (list float)) : bool :=
  match energyHistory with
  | None => true
  | Some history => (length history =? 0)%nat
  end.

(** A point of the chart, [{ iteration, energy }]. *)
Record point := mkPoint {
    iteration : Z;
    energy : float
}.

(** [energyHistory.map((energy, index) => ({ iteration: index + 1, energy }))]. *)
Definition data (energyHistory : list float) : list point :=
  imap (fun index energy => mkPoint (Z.of_nat index + 1) energy) energyHistory.

End EnergyChart.

Module ResultsDisplay.

(** The chart is rendered when
    [job.energy_history && job.energy_history.length > 0]. *)
Definition chartRendered (job : Job) : bool :=
  match Job.energy_history job with
  | None => false
  | Some history => (0 <? length history)%nat
  end.

(** The iterations card:
    [result?.num_iterations || job.energy_history?.length || 0]. *)
Definition iterations (job : Job) : Z :=
  let from_result :=
    match Job.result job with
    | Some result => SimulationResult.num_iterations result
    | None => 0%Z
    end in
  if (from_result =? 0)%Z
  then match Job.energy_history job with
       | Some history => Z.of_nat (length history)
       | None => 0%Z
       end
  else from_result.

End ResultsDisplay.

(** ** Simulation page ([pages/SimulationPage.tsx], with the mutations of
       [hooks/useSimulation.ts] and the toggle of
       [components/simulation/SimulationConfig.tsx]) *)

(** How an awaited promise settles. *)
Inductive settled (A : Type) : Type :=
  | Fulfilled (a : A)
  | Rejected (e : Js.error).
Arguments Fulfilled {A} a.
Arguments Rejected {A} e.

Module SimulationPage.

Inductive Step : Type := build | config | running.

Definition DEFAULT_MOLECULE : Molecule :=
  Molecule.mk EmptyString
    [Atom.mk "H" (0, 0, -0.69)%float; Atom.mk "H" (0, 0, 0.69)%float]
    0 1 "sto-3g".

Definition DEFAULT_VQE_CONFIG : VQEConfig :=
  VQEConfig.mk 0.2%float 200 None.

Definition DEFAULT_SQD_CONFIG : SQDConfig :=
  SQDConfig.mk 500 100 5 10000 false None.

(** The state cells of the page and of its two hooks.  [posted] records
    the bodies handed to [apiClient.createSimulation] (POST
    /simulations), most recent first. *)
Record State := mkState {
  molecule : Molecule;
  method : Method;
  vqeConfig : VQEConfig;
  sqdConfig : SQDConfig;
  step : Step;
  currentJobId : option string;
  validationResult : option ValidationResponse;
  validationError : option Js.error;
  createError : option Js.error;
  posted : list SimulationRequest
}.

Definition initial : State :=
  mkState DEFAULT_MOLECULE vqe DEFAULT_VQE_CONFIG DEFAULT_SQD_CONFIG build
          None None None None [].

Definition setMethod (m : Method) (st : State) : State :=
  mkState (molecule st) m (vqeConfig st) (sqdConfig st) (step st)
          (currentJobId st) (validationResult st) (validationError st)
          (createError st) (posted st).

Definition setStep (s : Step) (st : State) : State :=
  mkState (molecule st) (method st) (vqeConfig st) (sqdConfig st) s
          (currentJobId st) (validationResult st) (validationError st)
          (createError st) (posted st).

Definition setCurrentJobId (id : option string) (st : State) : State :=
  mkState (molecule st) (method st) (vqeConfig st) (sqdConfig st) (step st)
          id (validationResult st) (validationError st)
          (createError st) (posted st).

Definition clearCurrentJob (st : State) : State := setCurrentJobId None st.

(** [useValidation]: a fulfilled mutation stores its data through
    [onSuccess: setValidationResult]; a rejected one is exposed as
    [validationError]. *)
Definition validate_settled (o : settled ValidationResponse) (st : State) : State :=
  mkState (molecule st) (method st) (vqeConfig st) (sqdConfig st) (step st)
          (currentJobId st)
          (match o with Fulfilled r => Some r | Rejected _ => validationResult st end)
          (match o with Fulfilled _ => None | Rejected e => Some e end)
          (createError st) (posted st).

(** [handleValidate], given how [await validate(molecule)] settles. *)
Definition handleValidate (o : settled ValidationResponse) (st : State) : State :=
  let st := validate_settled o st in
  match o with
  | Fulfilled result =>
      if ValidationResponse.valid result then
        let st := setStep config st in
        (* Auto-select recommended method *)
        match ValidationResponse.recommended_method result with
        | Some m => setMethod m st
        | None => st
        end
      else st
  | Rejected _ => st   (* Error handled by mutation *)
  end.

(** The toggle of [SimulationConfig]: each button calls
    [onMethodChange] with its own method, and the page passes
    [setMethod] for it. *)
Definition onMethodChange (m : Method) (st : State) : State := setMethod m st.

(** The request object built by [handleSubmit]. *)
Definition request (st : State) : SimulationRequest :=
  SimulationRequest.mk (molecule st) (method st)
    (if Method_eqb (method st) vqe then Some (vqeConfig st) else None)
    (if Method_eqb (method st) sqd then Some (sqdConfig st) else None).

(** [useSimulation]'s create mutation: the request is sent, and
    [onSuccess] stores the new job id. *)
Definition create_settled (req : SimulationRequest) (o : settled CreateJobResponse)
    (st : State) : State :=
  mkState (molecule st) (method st) (vqeConfig st) (sqdConfig st) (step st)
          (match o with
           | Fulfilled data => Some (CreateJobResponse.job_id data)
           | Rejected _ => currentJobId st
           end)
          (validationResult st) (validationError st)
          (match o with Fulfilled _ => None | Rejected e => Some e end)
          (req :: posted st).

(** [handleSubmit], given how [await createSimulation(...)] settles. *)
Definition handleSubmit (o : settled CreateJobResponse) (st : State) : State :=
  let req := request st in
  let st := clearCurrentJob st in
  let st := create_settled req o st in
  match o with
  | Fulfilled _ => setStep running st
  | Rejected _ => st   (* Error handled by mutation *)
  end.


Definition setMolecule (m : Molecule) (st : State) : State :=
  mkState m (method st) (vqeConfig st) (sqdConfig st) (step st)
          (currentJobId st) (validationResult st) (validationError st)
          (createError st) (posted st).

Definition setVqeConfig (c : VQEConfig) (st : State) : State :=
  mkState (molecule st) (method st) c (sqdConfig st) (step st)
          (currentJobId st) (validationResult st) (validationError st)
          (createError st) (posted st).

Definition setSqdConfig (c : SQDConfig) (st : State) : State :=
  mkState (molecule st) (method st) (vqeConfig st) c (step st)
          (currentJobId st) (validationResult st) (validationError st)
          (createError st) (posted st).

(** A user action on [SimulationConfig] as the page wires it
    ([onMethodChange={setMethod}], [onVqeConfigChange={setVqeConfig}],
    [onSqdConfigChange={setSqdConfig}]).  The VQE card is rendered when
    the method is vqe and the SQD cards otherwise; the API key input is
    rendered only in hardware mode; an action on a control that is not
    rendered changes nothing. *)
Definition configure (e : SimulationConfig.event) (st : State) : State :=
  let on_vqe f := if Method_eqb (method st) vqe then setVqeConfig (f (vqeConfig st)) st else st in
  let on_sqd f := if Method_eqb (method st) vqe then st else setSqdConfig (f (sqdConfig st)) st in
  match e with
  | SimulationConfig.ClickMethod m => onMethodChange m st
  | SimulationConfig.TypeStepSize parsed => on_vqe (SimulationConfig.withStepSize parsed)
  | SimulationConfig.TypeNumSteps parsed => on_vqe (SimulationConfig.withNumSteps parsed)
  | SimulationConfig.ClickSimulate => on_sqd SimulationConfig.chooseSimulate
  | SimulationConfig.ClickHardware => on_sqd SimulationConfig.chooseHardware
  | SimulationConfig.TypeApiKey value =>
      if SQDConfig.use_hardware (sqdConfig st)
      then on_sqd (SimulationConfig.withApiKey value)
      else st
  | SimulationConfig.TypeSamplesPerBatch parsed =>
      on_sqd (SimulationConfig.withSamplesPerBatch parsed)
  | SimulationConfig.TypeMaxIterations parsed =>
      on_sqd (SimulationConfig.withMaxIterations parsed)
  | SimulationConfig.TypeNumBatches parsed =>
      on_sqd (SimulationConfig.withNumBatches parsed)
  | SimulationConfig.TypeNumShots parsed =>
      on_sqd (SimulationConfig.withNumShots parsed)
  end.

(** [handleSubmit] up to its [await]: the current job is cleared and
    the request built from the state of the render is handed to
    [createSimulation], which posts it. *)
Definition submit_click (st : State) : State :=
  mkState (molecule st) (method st) (vqeConfig st) (sqdConfig st) (step st)
          None (validationResult st) (validationError st)
          (createError st) (request st :: posted st).

(** [handleSubmit] after its [await]: [onSuccess] stores the job id and
    the page moves to the running step, whatever the step is by then; a
    rejection is kept by the mutation. *)
Definition submit_settled (o : settled CreateJobResponse) (st : State) : State :=
  match o with
  | Fulfilled data =>
      mkState (molecule st) (method st) (vqeConfig st) (sqdConfig st) running
              (Some (CreateJobResponse.job_id data))
              (validationResult st) (validationError st) None (posted st)
  | Rejected e =>
      mkState (molecule st) (method st) (vqeConfig st) (sqdConfig st) (step st)
              (currentJobId st) (validationResult st) (validationError st)
              (Some e) (posted st)
  end.

(** The page between two events: its state cells and which of the two
    mutations has a request in flight ([isValidating], [isCreating]). *)
Record Page := mkPage {
  state : State;
  isValidating : bool;
  isCreating : bool
}.

Definition initial_page : Page := mkPage initial false false.

Definition with_state (f : State -> State) (p : Page) : Page :=
  mkPage (f (state p)) (isValidating p) (isCreating p).

(** What can happen to the page: a user action, or the settling of a
    request that is in flight. *)
Inductive event : Type :=
  | EditMolecule (m : Molecule)
  | ClickValidate
  | ValidateSettled (o : settled ValidationResponse)
  | Configure (e : SimulationConfig.event)
  | Back
  | ClickRun
  | RunSettled (o : settled CreateJobResponse).

(** One event.  The molecule builder and the validate button are
    rendered in the build step, the settings with the back and run
    buttons in the config step, and the running step has no control that
    changes the state; an action on a control that is not rendered
    changes nothing.  The validate and run buttons are rendered with
    [loading={isValidating}] and [loading={isCreating}], so neither has a
    second request in flight; the back button and the settings stay
    enabled.  The code after an [await] runs when the request settles and
    calls the setters whatever the step is by then. *)
Definition page_event (p : Page) (e : event) : Page :=
  match e with
  | EditMolecule m =>
      match step (state p) with
      | build => with_state (setMolecule m) p
      | _ => p
      end
  | ClickValidate =>
      match step (state p) with
      | build =>
          Button.click false (isValidating p)
            (fun p => mkPage (state p) true (isCreating p)) p
      | _ => p
      end
  | ValidateSettled o =>
      if isValidating p
      then mkPage (handleValidate o (state p)) false (isCreating p)
      else p
  | Configure c =>
      match step (state p) with
      | config => with_state (configure c) p
      | _ => p
      end
  | Back =>
      match step (state p) with
      | config => with_state (setStep build) p
      | _ => p
      end
  | ClickRun =>
      match step (state p) with
      | config =>
          Button.click false (isCreating p)
            (fun p => mkPage (submit_click (state p)) (isValidating p) true) p
      | _ => p
      end
  | RunSettled o =>
      if isCreating p
      then mkPage (submit_settled o (state p)) (isValidating p) false
      else p
  end.

Definition page_events (p : Page) (es : list event) : Page :=
  foldl page_event p es.

End SimulationPage.

(** ** Job lifecycle orchestration (Job Manager)

    The client reaches the Job Manager only through [apiClient]
    ([api/client.ts]: POST /simulations, GET and DELETE
    /simulations/{id}); its implementation belongs to the back end.  The
    definitions of this module follow the written specification of that
    layer (data model, operations and transition table). *)

Module JobManager.

(** Modelled from the spec: the error taxonomy of the orchestration
    layer; the back-end error types are missing from the sources. *)
Inductive ErrorKind : Type :=
  | ValidationError
  | NotFoundError
  | CapacityError
  | ExecutionError
  | InternalError.

Inductive result (A : Type) : Type :=
  | Ok (a : A)
  | Err (e : ErrorKind).
Arguments Ok {A} a.
Arguments Err {A} e.

Definition job_id : Type := nat.
Definition timestamp : Type := Z.

(** Modelled from the spec: the method-specific configuration of a
    submission, of which the record keeps a snapshot; the back-end
    request schema is missing from the sources. *)
Definition Config : Type := (VQEConfig + SQDConfig)%type.

(** Modelled from the spec: the JobRecord of the data model; the back-end
    record type is missing from the sources. *)
Record JobRecord := mkJob {
  id : job_id;
  status : JobStatus;
  method : Method;
  molecule_snapshot : Molecule;
  config_snapshot : Config;
  progress : Z;
  current_step : string;
  created_at : timestamp;
  started_at : option timestamp;
  completed_at : option timestamp;
  result_energy : option float;
  energy_history : option (list float);
  error_message : option string;
  cancellation_requested : bool
}.

(** Modelled from the spec: the terminal states of the glossary
    (completed, failed, cancelled); the back-end status type is missing
    from the sources. *)
Definition terminal (s : JobStatus) : bool :=
  match s with
  | completed | failed | cancelled => true
  | pending | running => false
  end.

(** Modelled from the spec: the edges of the transition table of the
    state machine that change the status (the progress row keeps it). *)
Definition edge (from to : JobStatus) : bool :=
  match from, to with
  | pending, running
  | pending, cancelled
  | running, completed
  | running, failed
  | running, cancelled => true
  | _, _ => false
  end.


(** Modelled from the spec: the events of the transition table and the
    infrastructure failure of the error handling design (a store or
    dispatcher failure after record creation); the back-end callbacks
    are missing from the sources. *)
Inductive Event : Type :=
  | PickUp
  | CancelRequest
  | ProgressCallback (pct : Z) (step : string)
  | SuccessCallback (energy : float) (history : list float)
  | FailureCallback (error : string)
  | CancellationObserved
  | InternalFailure (error : string).

Definition set_status (s : JobStatus) (started completed : option timestamp)
    (j : JobRecord) : JobRecord :=
  mkJob (id j) s (method j) (molecule_snapshot j) (config_snapshot j)
        (progress j) (current_step j) (created_at j) started completed
        (result_energy j) (energy_history j) (error_message j)
        (cancellation_requested j).

Definition set_progress (pct : Z) (step : string) (j : JobRecord) : JobRecord :=
  mkJob (id j) (status j) (method j) (molecule_snapshot j) (config_snapshot j)
        pct step (created_at j) (started_at j) (completed_at j)
        (result_energy j) (energy_history j) (error_message j)
        (cancellation_requested j).

Definition set_outcome (energy : option float) (history : option (list float))
    (error : option string) (j : JobRecord) : JobRecord :=
  mkJob (id j) (status j) (method j) (molecule_snapshot j) (config_snapshot j)
        (progress j) (current_step j) (created_at j) (started_at j)
        (completed_at j) energy history error (cancellation_requested j).

Definition request_cancellation (j : JobRecord) : JobRecord :=
  mkJob (id j) (status j) (method j) (molecule_snapshot j) (config_snapshot j)
        (progress j) (current_step j) (created_at j) (started_at j)
        (completed_at j) (result_energy j) (energy_history j) (error_message j)
        true.

(** Modelled from the spec: the transition table with its guards and
    the failure path of the error handling design; the back-end handlers
    are missing from the sources.  A transition attempted from a
    terminal state is a no-op; an event whose guard fails changes
    nothing; an infrastructure failure marks a job that is pending or
    running as failed; [started_at] is set on pending to running and
    [completed_at] on every transition into a terminal state; a progress
    callback stores the latest value. *)
Definition transition (now : timestamp) (e : Event) (j : JobRecord) : JobRecord :=
  if terminal (status j) then j
  else
    match e, status j with
    | PickUp, pending =>
        set_status running (Some now) (completed_at j) j
    | CancelRequest, pending =>
        set_status cancelled (started_at j) (Some now) (request_cancellation j)
    | CancelRequest, running =>
        request_cancellation j
    | ProgressCallback pct step, running =>
        set_progress pct step j
    | SuccessCallback energy history, running =>
        set_status completed (started_at j) (Some now)
                   (set_outcome (Some energy) (Some history) (error_message j) j)
    | FailureCallback error, running =>
        set_status failed (started_at j) (Some now)
                   (set_outcome (result_energy j) (energy_history j) (Some error) j)
    | CancellationObserved, running =>
        if cancellation_requested j
        then set_status cancelled (started_at j) (Some now) j
        else j
    | InternalFailure error, pending
    | InternalFailure error, running =>
        set_status failed (started_at j) (Some now)
                   (set_outcome (result_energy j) (energy_history j) (Some error) j)
    | _, _ => j
    end.




(** Modelled from the spec: the Job Record Store, keyed by job id, with
    the next unused id and the units of work handed to the Dispatcher in
    order; the store is missing from the sources. *)
Record Store := mkStore {
  records : gmap job_id JobRecord;
  next_id : job_id;
  dispatched : list job_id
}.

Definition empty_store : Store := mkStore ∅ 0%nat [].

(** Modelled from the spec: a callback or request for the job [jid],
    applied to its record; an unknown id is a NotFoundError.  The
    back-end service that receives them is missing from the sources. *)
Definition handle (now : timestamp) (jid : job_id) (e : Event) (s : Store) : result Store :=
  match records s !! jid with
  | None => Err NotFoundError
  | Some j =>
      Ok (mkStore (<[jid := transition now e j]> (records s)) (next_id s) (dispatched s))
  end.

(** Modelled from the spec: [Cancel(job_id)] of the Job Manager, the
    operation behind DELETE /simulations/{id}, whose implementation is
    missing from the sources. *)
Definition Cancel (now : timestamp) (jid : job_id) (s : Store) : result Store :=
  handle now jid CancelRequest s.

(** Modelled from the spec: [GetStatus(job_id)] of the Job Manager, the
    operation behind GET /simulations/{id}, whose implementation is
    missing from the sources. *)
Definition GetStatus (jid : job_id) (s : Store) : result JobRecord :=
  match records s !! jid with
  | None => Err NotFoundError
  | Some j => Ok j
  end.

Section Submission.

(** The Validator is a pure function of the molecule and the method;
    its formulas belong to the back end and stay abstract here. *)
Variable Validate : Molecule -> Method -> ValidationResponse.

(** Modelled from the spec: the record created by a successful
    submission, pending and without result fields. *)
Definition new_record (jid : job_id) (now : timestamp) (molecule : Molecule)
    (method : Method) (config : Config) : JobRecord :=
  mkJob jid pending method molecule config 0 EmptyString now None None None None None false.

(** Modelled from the spec: [Submit(molecule, method, config)] of the
    Job Manager, the operation behind POST /simulations, whose
    implementation is missing from the sources: run the Validator; if
    invalid fail with ValidationError and create no record; otherwise
    create a pending record and hand a unit of work to the Dispatcher. *)
Definition Submit (now : timestamp) (molecule : Molecule) (method : Method)
    (config : Config) (s : Store) : result job_id * Store :=
  if ValidationResponse.valid (Validate molecule method)
  then
    let jid := next_id s in
    (Ok jid,
     mkStore (<[jid := new_record jid now molecule method config]> (records s))
             (S jid) (dispatched s ++ [jid]))
  else (Err ValidationError, s).

End Submission.

End JobManager.

(** ** Predicates used in the statements *)

(** The two ranges [[1,18]] and [[20,36]] as a test on atomic numbers. *)
Definition in_1_18_or_20_36 (z : Z) : bool :=
  ((1 <=? z)%Z && (z <=? 18)%Z) || ((20 <=? z)%Z && (z <=? 36)%Z).

(** The completion [c] is a normal return of the boolean [b]. *)
Definition returns_bool (c : Js.completion bool) (b : bool) : bool :=
  match c with
  | Js.Return b' => Bool.eqb b' b
  | Js.Throw _ => false
  end.

(** The number of integers covered by a list of inclusive ranges that
    do not overlap. *)
Definition range_width (ranges : list (Z * Z)) : Z :=
  foldr (fun r acc => (snd r - fst r + 1 + acc)%Z) 0%Z ranges.

(** A request carries the configuration of its method and no other. *)
Definition one_config (req : SimulationRequest) : Prop :=
  match SimulationRequest.method req with
  | vqe => is_Some (SimulationRequest.vqe_config req)
           /\ SimulationRequest.sqd_config req = None
  | sqd => is_Some (SimulationRequest.sqd_config req)
           /\ SimulationRequest.vqe_config req = None
  end.

(** An SQD configuration whose API key is empty or absent unless the
    hardware mode is on, and whose counts are not zero. *)
Definition sqd_config_ok (c : SQDConfig) : Prop :=
  (SQDConfig.use_hardware c = false ->
     SQDConfig.ibm_api_key c = None \/ SQDConfig.ibm_api_key c = Some EmptyString)
  /\ SQDConfig.samples_per_batch c <> 0%Z
  /\ SQDConfig.max_iterations c <> 0%Z
  /\ SQDConfig.num_batches c <> 0%Z
  /\ SQDConfig.num_shots c <> 0%Z.

(** The first character of a string, if there is one, is an ASCII
    character. *)
Definition ascii_first (s : string) : Prop :=
  match s with
  | EmptyString => True
  | String c _ => (N_of_ascii c < 128)%N
  end.

(** ASCII lower-case letters. *)
Definition is_lower (c : ascii) : bool :=
  let n := N_of_ascii c in ((97 <=? n) && (n <=? 122))%N.

(** What every state of the page satisfies. *)
Definition configs_ok (st : SimulationPage.State) : Prop :=
  sqd_config_ok (SimulationPage.sqdConfig st)
  /\ VQEConfig.num_steps (SimulationPage.vqeConfig st) <> 0%Z
  /\ forall req, req ∈ SimulationPage.posted st ->
       one_config req
       /\ (forall c, SimulationRequest.sqd_config req = Some c -> sqd_config_ok c)
       /\ (forall c, SimulationRequest.vqe_config req = Some c ->
             VQEConfig.num_steps c <> 0%Z).

(** The history kept along the events of the page. *)
Definition flow_ok (es : list SimulationPage.event) (p : SimulationPage.Page) : Prop :=
  let st := SimulationPage.state p in
  ((SimulationPage.step st <> SimulationPage.build \/ SimulationPage.posted st <> []) ->
     exists r, SimulationPage.ValidateSettled (Fulfilled r) ∈ es
               /\ ValidationResponse.valid r = true)
  /\ (SimulationPage.step st = SimulationPage.config ->
        SimulationPage.isValidating p = false
        /\ exists r, SimulationPage.validationResult st = Some r
                     /\ ValidationResponse.valid r = true)
  /\ (SimulationPage.step st = SimulationPage.running ->
        is_Some (SimulationPage.currentJobId st)
        /\ SimulationPage.posted st <> []
        /\ SimulationPage.isCreating p = false)
  /\ (SimulationPage.isCreating p = true -> SimulationPage.posted st <> []).

(** * Properties *)

(** ** Elements and basis sets *)

(** Membership in an explicit list, by position. *)
Ltac in_list := repeat (first [left; reflexivity | right]).

Section ElementsFacts.
Import Js Elements.

Lemma returns_bool_spec (c : completion bool) (b : bool) :
  returns_bool c b = true -> c = Return b.
Proof.
  destruct c as [b'|e]; simpl; [|discriminate].
  intros H. apply Bool.eqb_prop in H. now subst.
Qed.

Lemma find_symbol_None (symbol : string) :
  (forall e, e ∈ ALL_ELEMENTS -> Element.symbol e <> symbol) ->
  List.find (fun e => bool_decide (Element.symbol e = symbol)) ALL_ELEMENTS = None.
Proof.
  intros Hno.
  destruct (List.find (fun e => bool_decide (Element.symbol e = symbol)) ALL_ELEMENTS)
    as [e|] eqn:Hfind; [|reflexivity].
  apply List.find_some in Hfind as [Hin Heq].
  apply bool_decide_eq_true in Heq.
  exfalso. apply (Hno e); [|exact Heq].
  apply list_elem_of_In. exact Hin.
Qed.

(** A symbol that names no element is reported unsupported, whatever the
    basis set: the table of ranges is not consulted. *)
Lemma isElementSupported_unknown_symbol (symbol basisSet : string) :
  (forall e, e ∈ ALL_ELEMENTS -> Element.symbol e <> symbol) ->
  isElementSupported symbol basisSet = Return false.
Proof.
  intros Hno. unfold isElementSupported.
  now rewrite (find_symbol_None symbol Hno).
Qed.

Lemma find_symbol_Some (symbol : string) :
  (exists e, e ∈ ALL_ELEMENTS /\ Element.symbol e = symbol) ->
  exists el, List.find (fun e => bool_decide (Element.symbol e = symbol)) ALL_ELEMENTS = Some el
             /\ el ∈ ALL_ELEMENTS.
Proof.
  intros (e & Hin & Hsym).
  destruct (List.find (fun e => bool_decide (Element.symbol e = symbol)) ALL_ELEMENTS)
    as [el|] eqn:Hfind.
  - exists el. split; [reflexivity|].
    apply List.find_some in Hfind as [Hel _]. now apply list_elem_of_In.
  - exfalso.
    pose proof (List.find_none _ _ Hfind e) as Hnone.
    rewrite bool_decide_eq_false in Hnone.
    apply Hnone; [now apply list_elem_of_In | exact Hsym].
Qed.

(** When the lookup in the table yields [undefined], every atomic number
    of the periodic table is allowed. *)
Lemma supportedZSet_fallback (basisSet : string) :
  get BASIS_SET_RANGES (toLowerCase basisSet) = Undefined ->
  supportedZSet basisSet = Return (list_to_set (map Element.atomic_number ALL_ELEMENTS)).
Proof. intros H. unfold supportedZSet. now rewrite H. Qed.

Lemma filter_all {A} (f : A -> bool) (l : list A) :
  (forall x, In x l -> f x = true) -> List.filter f l = l.
Proof.
  induction l as [|x l IH]; intros H; simpl; [reflexivity|].
  rewrite (H x (or_introl eq_refl)). f_equal. apply IH.
  intros y Hy. apply H. now right.
Qed.

Lemma getElementsForBasisSet_fallback (basisSet : string) :
  get BASIS_SET_RANGES (toLowerCase basisSet) = Undefined ->
  getElementsForBasisSet basisSet = Return ALL_ELEMENTS.
Proof.
  intros H. unfold getElementsForBasisSet.
  rewrite (supportedZSet_fallback _ H). cbn [mbind completion_bind bind].
  rewrite filter_all; [reflexivity|].
  intros e He.
  apply bool_decide_eq_true. apply elem_of_list_to_set.
  apply list_elem_of_In. now apply in_map.
Qed.

Lemma isElementSupported_fallback (symbol basisSet : string) :
  get BASIS_SET_RANGES (toLowerCase basisSet) = Undefined ->
  (exists e, e ∈ ALL_ELEMENTS /\ Element.symbol e = symbol) ->
  isElementSupported symbol basisSet = Return true.
Proof.
  intros H Hsym. unfold isElementSupported.
  destruct (find_symbol_Some symbol Hsym) as (el & -> & Hel).
  rewrite (supportedZSet_fallback _ H). cbn [mbind completion_bind bind].
  rewrite bool_decide_eq_true_2; [reflexivity|].
  apply elem_of_list_to_set.
  apply list_elem_of_In. apply in_map. now apply list_elem_of_In.
Qed.

Lemma toLowerCase_ascii_not_upper (c : ascii) : is_upper (toLowerCase_ascii c) = false.
Proof. destruct c as [[] [] [] [] [] [] [] []]; reflexivity. Qed.

Lemma toLowerCase_has_upper (s : string) : has_upper (toLowerCase s) = false.
Proof.
  induction s as [|c r IH]; simpl; [reflexivity|].
  now rewrite toLowerCase_ascii_not_upper, IH.
Qed.

(** After [toLowerCase], the only keys that reach a property of
    [Object.prototype] are "constructor" and "__proto__". *)
Lemma get_lowercase_cases (basisSet : string) :
  let key := toLowerCase basisSet in
  get BASIS_SET_RANGES key = Undefined
  \/ (exists ranges, get BASIS_SET_RANGES key = RangeArray ranges)
  \/ key = "constructor" \/ key = "__proto__".
Proof.
  intros key. pose proof (toLowerCase_has_upper basisSet) as Hlow.
  fold key in Hlow. unfold get.
  destruct (BASIS_SET_RANGES !! key) as [ranges|]; [right; left; eauto|].
  unfold Object_prototype.
  destruct (bool_decide (key = "__proto__")) eqn:Hproto.
  { apply bool_decide_eq_true in Hproto. auto. }
  match goal with |- context [bool_decide (key ∈ ?l)] =>
    destruct (bool_decide (key ∈ l)) eqn:Hinh end; [|now left].
  apply bool_decide_eq_true in Hinh. right; right; left.
  repeat (apply elem_of_cons in Hinh as [Hinh | Hinh];
          [try exact Hinh; rewrite Hinh in Hlow; vm_compute in Hlow; discriminate|]).
  now apply elem_of_nil in Hinh.
Qed.

(** Apart from those two keys the check is total: it returns a boolean
    for every symbol and every basis set. *)
Lemma isElementSupported_returns (symbol basisSet : string) :
  toLowerCase basisSet <> "constructor" ->
  toLowerCase basisSet <> "__proto__" ->
  returns (isElementSupported symbol basisSet).
Proof.
  intros Hc Hp. unfold isElementSupported, returns.
  destruct (List.find (fun e => bool_decide (Element.symbol e = symbol)) ALL_ELEMENTS)
    as [el|]; [|eauto].
  unfold supportedZSet.
  destruct (get_lowercase_cases basisSet) as [H | [(ranges & H) | [H | H]]];
    try contradiction; rewrite H; cbn; eauto.
Qed.

End ElementsFacts.

(** C1: for the basis sets cc-pvdz and cc-pvtz the table holds the ranges
    [[1,18]] and [[20,36]]; [isElementSupported] reports every element of
    the periodic table supported exactly when its atomic number lies in
    one of the two ranges; in particular potassium (K, 19) is reported
    invalid while argon (Ar, 18) and calcium (Ca, 20) are reported
    valid. *)
Theorem cc_pv_potassium_boundary (basisSet : string) :
  basisSet = "cc-pvdz" \/ basisSet = "cc-pvtz" ->
  Elements.BASIS_SET_RANGES !! basisSet = Some [(1, 18); (20, 36)]
  /\ (forall el, el ∈ Elements.ALL_ELEMENTS ->
        Elements.isElementSupported (Element.symbol el) basisSet
        = Js.Return (in_1_18_or_20_36 (Element.atomic_number el)))
  /\ In (Element.mk 19 "K" "Potassium") Elements.ALL_ELEMENTS
  /\ In (Element.mk 18 "Ar" "Argon") Elements.ALL_ELEMENTS
  /\ In (Element.mk 20 "Ca" "Calcium") Elements.ALL_ELEMENTS
  /\ Elements.isElementSupported "K" basisSet = Js.Return false
  /\ Elements.isElementSupported "Ar" basisSet = Js.Return true
  /\ Elements.isElementSupported "Ca" basisSet = Js.Return true.
Proof.
  assert (Hall : forall bs, bs = "cc-pvdz" \/ bs = "cc-pvtz" ->
            forallb (fun el => returns_bool
                       (Elements.isElementSupported (Element.symbol el) bs)
                       (in_1_18_or_20_36 (Element.atomic_number el)))
                    Elements.ALL_ELEMENTS = true).
  { intros bs [-> | ->]; vm_compute; reflexivity. }
  intros Hbs. split; [|split].
  - destruct Hbs as [-> | ->]; vm_compute; reflexivity.
  - intros el Hel. apply returns_bool_spec.
    pose proof (Hall basisSet Hbs) as H.
    rewrite forallb_forall in H. apply H. now apply list_elem_of_In.
  - repeat split; try (destruct Hbs as [-> | ->]; vm_compute; reflexivity);
      unfold Elements.ALL_ELEMENTS; in_list.
Qed.

Lemma cc_pv_potassium_boundary_witness :
  Elements.isElementSupported "K" "cc-pvdz" = Js.Return false
  /\ Elements.isElementSupported "Ar" "cc-pvdz" = Js.Return true
  /\ Elements.isElementSupported "Ca" "cc-pvdz" = Js.Return true.
Proof.
  destruct (cc_pv_potassium_boundary "cc-pvdz" (or_introl eq_refl))
    as (_ & _ & _ & _ & _ & HK & HAr & HCa).
  exact (conj HK (conj HAr HCa)).
Defined.

(** C2: [isElementSupported] is not total.  The string "constructor" is
    not a key of the table of ranges, but the lookup finds the property
    inherited from [Object.prototype], so the fallback is skipped and
    iterating the function throws a [TypeError]; for a symbol that names
    no element the same basis set still gives [false]. *)
Theorem isElementSupported_throws_on_inherited_key :
  Elements.BASIS_SET_RANGES !! Js.toLowerCase "constructor" = None
  /\ Elements.isElementSupported "H" "constructor"
     = Js.Throw (Js.TypeError "ranges is not iterable")
  /\ Elements.isElementSupported "Xx" "constructor" = Js.Return false.
Proof. repeat split; vm_compute; reflexivity. Qed.

(** C8: the fallback for unknown basis sets misses the keys inherited
    from [Object.prototype].  The lower-case form of "constructor" is
    not a key of the table, yet [supportedZSet] does not return the set
    of all atomic numbers: it throws, and so do both functions built on
    it. *)
Theorem fallback_misses_inherited_key :
  Elements.BASIS_SET_RANGES !! Js.toLowerCase "constructor" = None
  /\ Elements.supportedZSet "constructor"
     = Js.Throw (Js.TypeError "ranges is not iterable")
  /\ Elements.getElementsForBasisSet "constructor"
     = Js.Throw (Js.TypeError "ranges is not iterable")
  /\ In (Element.mk 1 "H" "Hydrogen") Elements.ALL_ELEMENTS
  /\ Elements.isElementSupported "H" "constructor" <> Js.Return true.
Proof.
  repeat split; try (vm_compute; reflexivity).
  - unfold Elements.ALL_ELEMENTS; in_list.
  - vm_compute. discriminate.
Qed.

(** ** Molecule builder *)

Section MoleculeBuilderFacts.
Import MoleculeBuilder.

Lemma filter_from_above {A} (l : list A) (k target : nat) :
  (target < k)%nat ->
  Js.filter_from k (fun _ i => negb (i =? target)%nat) l = l.
Proof.
  revert k. induction l as [|x l IH]; intros k Hk; simpl; [reflexivity|].
  destruct (Nat.eqb_spec k target) as [Heq|_]; [lia|].
  simpl. f_equal. apply IH. lia.
Qed.

Lemma filter_from_delete {A} (l : list A) (k n : nat) :
  Js.filter_from k (fun _ i => negb (i =? k + n)%nat) l = delete n l.
Proof.
  revert k n. induction l as [|x l IH]; intros k n; simpl; [reflexivity|].
  destruct n as [|n].
  - rewrite Nat.add_0_r, Nat.eqb_refl. simpl.
    replace (fun (_ : A) (i : nat) => negb (i =? k + 0)%nat)
      with (fun (_ : A) (i : nat) => negb (i =? k)%nat).
    + apply filter_from_above. lia.
    + now rewrite Nat.add_0_r.
  - destruct (Nat.eqb_spec k (k + S n)) as [Heq|_]; [lia|].
    simpl. f_equal.
    replace (k + S n)%nat with (S k + n)%nat by lia. apply IH.
Qed.

(** Filtering out one index removes the element at that index. *)
Lemma filter_index_delete {A} (l : list A) (index : nat) :
  Js.filter_index (fun _ i => negb (i =? index)%nat) l = delete index l.
Proof. unfold Js.filter_index. apply (filter_from_delete l 0 index). Qed.

Lemma handleAddAtom_length (m : Molecule) :
  length (Molecule.atoms (handleAddAtom m)) = S (length (Molecule.atoms m)).
Proof. unfold handleAddAtom, with_atoms. simpl. rewrite length_app. simpl. lia. Qed.

Lemma handleRemoveAtom_length (m : Molecule) (index : nat) :
  (index < length (Molecule.atoms m))%nat ->
  length (Molecule.atoms (handleRemoveAtom m index)) = pred (length (Molecule.atoms m)).
Proof.
  intros Hlt. unfold handleRemoveAtom, with_atoms. simpl.
  rewrite filter_index_delete, length_delete; [lia|].
  now apply lookup_lt_is_Some.
Qed.

Lemma ui_event_nonempty (m : Molecule) (e : event) :
  (0 < length (Molecule.atoms m))%nat ->
  (0 < length (Molecule.atoms (ui_event m e)))%nat.
Proof.
  intros Hpos. destruct e as [|index|index atom]; cbn [ui_event].
  - unfold Button.click, Button.disabled. cbn [orb]. rewrite handleAddAtom_length. lia.
  - destruct (Nat.ltb_spec index (length (Molecule.atoms m))) as [Hlt|_]; [|exact Hpos].
    unfold Button.click, Button.disabled. rewrite orb_false_r.
    destruct (canRemove m) eqn:Hcan; cbn [negb]; [|exact Hpos].
    rewrite handleRemoveAtom_length by exact Hlt.
    unfold canRemove in Hcan. apply Nat.ltb_lt in Hcan. lia.
  - destruct (Nat.ltb_spec index (length (Molecule.atoms m))) as [Hlt|_]; [|exact Hpos].
    unfold handleAtomChange, with_atoms. simpl. now rewrite length_insert.
Qed.

Lemma ui_events_nonempty (es : list event) (m : Molecule) :
  (0 < length (Molecule.atoms m))%nat ->
  (0 < length (Molecule.atoms (ui_events m es)))%nat.
Proof.
  revert m. induction es as [|e es IH]; intros m Hpos; simpl; [exact Hpos|].
  apply IH. now apply ui_event_nonempty.
Qed.

End MoleculeBuilderFacts.

(** C10: starting from a molecule with a non-empty atoms list,
    [handleAddAtom] makes the list one longer, the remove button is
    disabled ([canRemove] is false, and a click on it changes nothing)
    whenever the list has exactly one atom, and no sequence of add,
    remove and edit actions of the builder yields an empty atoms list. *)
Theorem atoms_never_empty (m : Molecule) (es : list MoleculeBuilder.event) :
  Molecule.atoms m <> [] ->
  length (Molecule.atoms (MoleculeBuilder.handleAddAtom m)) = S (length (Molecule.atoms m))
  /\ (length (Molecule.atoms m) = 1%nat ->
        MoleculeBuilder.canRemove m = false
        /\ forall index, MoleculeBuilder.ui_event m (MoleculeBuilder.RemoveAtom index) = m)
  /\ Molecule.atoms (MoleculeBuilder.ui_events m es) <> [].
Proof.
  intros Hne. split; [apply handleAddAtom_length|]. split.
  - intros Hone. assert (Hcan : MoleculeBuilder.canRemove m = false).
    { unfold MoleculeBuilder.canRemove. rewrite Hone. reflexivity. }
    split; [exact Hcan|]. intros index. simpl.
    destruct (index <? length (Molecule.atoms m))%nat; [|reflexivity].
    unfold Button.click, Button.disabled. now rewrite Hcan.
  - assert (Hpos : (0 < length (Molecule.atoms m))%nat).
    { destruct (Molecule.atoms m); [congruence | simpl; lia]. }
    pose proof (ui_events_nonempty es m Hpos) as H.
    destruct (Molecule.atoms (MoleculeBuilder.ui_events m es)); [simpl in H; lia | discriminate].
Qed.

Lemma atoms_never_empty_witness :
  let m := Molecule.mk EmptyString [MoleculeBuilder.DEFAULT_ATOM] 0 1 "sto-3g" in
  let es := [MoleculeBuilder.RemoveAtom 0; MoleculeBuilder.AddAtom;
             MoleculeBuilder.RemoveAtom 1; MoleculeBuilder.RemoveAtom 0] in
  length (Molecule.atoms (MoleculeBuilder.handleAddAtom m)) = 2%nat
  /\ MoleculeBuilder.canRemove m = false
  /\ Molecule.atoms (MoleculeBuilder.ui_events m es) <> [].
Proof.
  intros m es.
  destruct (atoms_never_empty m es) as (Hadd & Hone & Hinv).
  - simpl. discriminate.
  - split; [exact Hadd|]. split; [|exact Hinv].
    apply Hone. reflexivity.
Defined.

(** ** Polling *)

(** C9: the two polling callbacks stop on different status sets.  The
    callback of the JobStatus component returns [false] exactly for a
    fetched job that is completed, failed or cancelled and 2000
    otherwise; the callback of [useSimulation] returns [false] only for
    completed or failed, so for a cancelled job it returns 2000 and the
    job keeps being polled. *)
Theorem polling_stop_sets (data : option Job) :
  JobStatusComponent.refetchInterval data
  = match data with
    | Some job =>
        match Job.status job with
        | completed | failed | cancelled => NoRefetch
        | pending | running => EveryMs 2000
        end
    | None => EveryMs 2000
    end
  /\ useSimulation.refetchInterval data
  = match data with
    | Some job =>
        match Job.status job with
        | completed | failed => NoRefetch
        | pending | running | cancelled => EveryMs 2000
        end
    | None => EveryMs 2000
    end
  /\ (forall job, data = Some job -> Job.status job = cancelled ->
        JobStatusComponent.refetchInterval data = NoRefetch
        /\ useSimulation.refetchInterval data = EveryMs 2000).
Proof.
  unfold JobStatusComponent.refetchInterval, useSimulation.refetchInterval, status_is.
  split; [|split].
  - destruct data as [job|]; [destruct (Job.status job)|]; reflexivity.
  - destruct data as [job|]; [destruct (Job.status job)|]; reflexivity.
  - intros job -> ->. split; reflexivity.
Qed.

Lemma polling_stop_sets_witness :
  let job := Job.mk "job-1" cancelled "vqe" "H2" "2024-01-01T00:00:00" None
                    (Some "2024-01-01T00:00:05") 40 "Cancelled" None None None None in
  JobStatusComponent.refetchInterval (Some job) = NoRefetch
  /\ useSimulation.refetchInterval (Some job) = EveryMs 2000.
Proof.
  intros job.
  exact (proj2 (proj2 (polling_stop_sets (Some job))) job eq_refl eq_refl).
Defined.

(** ** Simulation page *)

(** C3: the recommended method is advisory.  After a valid validation
    result has moved the page to the configuration step and auto-selected
    the recommended method, the toggle sets the method to whichever of
    vqe and sqd the user picks, and [handleSubmit] sends the request with
    the method selected at that moment, whatever the recommendation
    was. *)
Theorem recommended_method_advisory
    (st : SimulationPage.State) (result : ValidationResponse)
    (recommended chosen : Method) (o : settled CreateJobResponse) :
  ValidationResponse.valid result = true ->
  ValidationResponse.recommended_method result = Some recommended ->
  let validated := SimulationPage.handleValidate (Fulfilled result) st in
  let toggled := SimulationPage.onMethodChange chosen validated in
  let submitted := SimulationPage.handleSubmit o toggled in
  SimulationPage.step validated = SimulationPage.config
  /\ SimulationPage.method validated = recommended
  /\ SimulationPage.method toggled = chosen
  /\ SimulationPage.posted submitted
     = SimulationPage.request toggled :: SimulationPage.posted st
  /\ SimulationRequest.method (SimulationPage.request toggled) = chosen
  /\ SimulationRequest.molecule (SimulationPage.request toggled)
     = SimulationPage.molecule st.
Proof.
  intros Hvalid Hrec. unfold SimulationPage.handleValidate.
  rewrite Hvalid, Hrec. cbv zeta.
  repeat split; try reflexivity.
  destruct o; reflexivity.
Qed.

Lemma recommended_method_advisory_witness :
  let result := ValidationResponse.mk true "H2" 2 2 4 None None [] (Some vqe) in
  let validated := SimulationPage.handleValidate (Fulfilled result) SimulationPage.initial in
  let toggled := SimulationPage.onMethodChange sqd validated in
  SimulationPage.method validated = vqe
  /\ SimulationRequest.method (SimulationPage.request toggled) = sqd.
Proof.
  intros result validated toggled.
  destruct (recommended_method_advisory SimulationPage.initial result vqe sqd
              (Rejected (Js.Error "Network Error")) eq_refl eq_refl)
    as (_ & Hrec & _ & _ & Hreq & _).
  exact (conj Hrec Hreq).
Defined.

(** ** Job lifecycle *)

Section JobManagerFacts.
Import JobManager.

Lemma transition_terminal (now : timestamp) (e : Event) (j : JobRecord) :
  terminal (status j) = true -> transition now e j = j.
Proof. intros H. unfold transition. now rewrite H. Qed.







Lemma handle_terminal (now : timestamp) (jid : job_id) (e : Event) (s : Store) (j : JobRecord) :
  records s !! jid = Some j -> terminal (status j) = true ->
  handle now jid e s = Ok s.
Proof.
  intros Hj Hterm. unfold handle. rewrite Hj, (transition_terminal _ _ _ Hterm).
  rewrite (insert_id _ _ _ Hj). now destruct s.
Qed.

Lemma cancel_twice_record (t1 t2 : timestamp) (j : JobRecord) :
  transition t2 CancelRequest (transition t1 CancelRequest j)
  = transition t1 CancelRequest j.
Proof.
  unfold transition. destruct (status j) eqn:Hs; cbn; rewrite ?Hs; reflexivity.
Qed.

(** Every edge of the table is taken by some event. *)
Lemma edge_taken (a b : JobStatus) (j : JobRecord) :
  edge a b = true -> status j = a -> cancellation_requested j = true ->
  exists e, status (transition 0 e j) = b.
Proof.
  intros Hedge Hs Hc. unfold transition. rewrite Hs.
  destruct a, b; try discriminate; cbn [terminal].
  - now exists PickUp.
  - now exists CancelRequest.
  - now exists (SuccessCallback 0%float []).
  - now exists (FailureCallback EmptyString).
  - exists CancellationObserved. now rewrite Hc.
Qed.

(** A valid submission creates a pending record under a fresh id. *)
Lemma Submit_valid (Validate : Molecule -> Method -> ValidationResponse)
    (now : timestamp) (molecule : Molecule) (method : Method) (config : Config) (s : Store) :
  ValidationResponse.valid (Validate molecule method) = true ->
  exists s', Submit Validate now molecule method config s = (Ok (next_id s), s')
             /\ GetStatus (next_id s) s'
                = Ok (new_record (next_id s) now molecule method config).
Proof.
  intros Hv. unfold Submit. rewrite Hv. eexists. split; [reflexivity|].
  unfold GetStatus. cbn [records]. now rewrite lookup_insert_eq.
Qed.

End JobManagerFacts.

(** C4: Cancel is idempotent.  Cancelling a job that is already terminal
    returns the store unchanged and no error; on a record, a second
    cancel request changes nothing after the first; and on the store,
    calling Cancel twice ends in the same state, or the same error, as
    calling it once. *)
Theorem cancel_idempotent
    (t1 t2 : JobManager.timestamp) (jid : JobManager.job_id) (s : JobManager.Store) :
  (forall j, JobManager.records s !! jid = Some j ->
             JobManager.terminal (JobManager.status j) = true ->
             JobManager.Cancel t1 jid s = JobManager.Ok s)
  /\ (forall j, JobManager.transition t2 JobManager.CancelRequest
                  (JobManager.transition t1 JobManager.CancelRequest j)
                = JobManager.transition t1 JobManager.CancelRequest j)
  /\ match JobManager.Cancel t1 jid s with
     | JobManager.Ok s1 => JobManager.Cancel t2 jid s1 = JobManager.Ok s1
     | JobManager.Err e => JobManager.Cancel t2 jid s = JobManager.Err e
     end.
Proof.
  split; [|split].
  - intros j Hj Hterm. now apply (handle_terminal t1 jid _ s j).
  - intros j. apply cancel_twice_record.
  - unfold JobManager.Cancel, JobManager.handle.
    destruct (JobManager.records s !! jid) as [j|] eqn:Hj.
    + cbn [JobManager.records]. rewrite lookup_insert_eq.
      rewrite cancel_twice_record, insert_insert_eq. reflexivity.
    + reflexivity.
Qed.

Lemma cancel_idempotent_witness :
  let j := JobManager.transition 7 JobManager.CancelRequest
             (JobManager.new_record 0%nat 5 SimulationPage.DEFAULT_MOLECULE vqe
                (inl SimulationPage.DEFAULT_VQE_CONFIG)) in
  let s := JobManager.mkStore {[ 0%nat := j ]} 1%nat [0%nat] in
  JobManager.status j = cancelled
  /\ JobManager.Cancel 9 0%nat s = JobManager.Ok s.
Proof.
  intros j s. split; [reflexivity|].
  exact (proj1 (cancel_idempotent 9 11 0%nat s) j eq_refl eq_refl).
Defined.

(** C5: a submission whose molecule the Validator reports invalid fails
    with ValidationError and leaves the store as it was, so no record is
    created; on the client, a validation started from the build step
    moves the page to the configuration step, from which a simulation is
    submitted, exactly when the validation request is fulfilled with
    [valid] true. *)
Theorem invalid_submission_creates_no_record
    (Validate : Molecule -> Method -> ValidationResponse)
    (now : JobManager.timestamp) (molecule : Molecule) (method : Method)
    (config : JobManager.Config) (s : JobManager.Store)
    (o : settled ValidationResponse) (st : SimulationPage.State) :
  (ValidationResponse.valid (Validate molecule method) = false ->
     JobManager.Submit Validate now molecule method config s
     = (JobManager.Err JobManager.ValidationError, s))
  /\ (SimulationPage.step st = SimulationPage.build ->
      (SimulationPage.step (SimulationPage.handleValidate o st) = SimulationPage.config
       <-> exists result, o = Fulfilled result
                          /\ ValidationResponse.valid result = true)).
Proof.
  split.
  - intros Hinvalid. unfold JobManager.Submit. now rewrite Hinvalid.
  - intros Hbuild. unfold SimulationPage.handleValidate. split.
    + destruct o as [result|e]; cbn.
      * destruct (ValidationResponse.valid result) eqn:Hv.
        -- intros _. now exists result.
        -- cbn. rewrite Hbuild. discriminate.
      * rewrite Hbuild. discriminate.
    + intros (result & -> & Hv). rewrite Hv.
      now destruct (ValidationResponse.recommended_method result).
Qed.

Lemma invalid_submission_creates_no_record_witness :
  let Validate := fun (m : Molecule) (_ : Method) =>
    ValidationResponse.mk
      (forallb (fun a => returns_bool
                  (Elements.isElementSupported (Atom.symbol a) (Molecule.basis_set m)) true)
               (Molecule.atoms m))
      (Molecule.name m) (Z.of_nat (length (Molecule.atoms m))) 0 0 None None [] None in
  let KH := Molecule.mk "KH" [Atom.mk "K" (0, 0, 0)%float; Atom.mk "H" (0, 0, 2.24)%float]
                        0 1 "cc-pvdz" in
  JobManager.Submit Validate 5 KH vqe (inl SimulationPage.DEFAULT_VQE_CONFIG)
                    JobManager.empty_store
  = (JobManager.Err JobManager.ValidationError, JobManager.empty_store)
  /\ SimulationPage.step
       (SimulationPage.handleValidate (Fulfilled (Validate KH vqe)) SimulationPage.initial)
     <> SimulationPage.config.
Proof.
  intros Validate KH.
  destruct (invalid_submission_creates_no_record Validate 5 KH vqe
              (inl SimulationPage.DEFAULT_VQE_CONFIG) JobManager.empty_store
              (Fulfilled (Validate KH vqe)) SimulationPage.initial)
    as (Hsubmit & Hclient).
  split.
  - apply Hsubmit. vm_compute. reflexivity.
  - intros Hstep. apply (Hclient eq_refl) in Hstep as (result & Hres & Hvalid).
    injection Hres as <-. vm_compute in Hvalid. discriminate.
Defined.




(** * Further properties of the client code *)

(** ** Basis-set support *)

Section SupportFacts.
Import Js Elements.

Lemma elem_of_foldl_add (l : list Z) (s : gset Z) (z : Z) :
  z ∈ foldl (fun acc x => {[ x ]} ∪ acc) s l <-> z ∈ s \/ z ∈ l.
Proof.
  revert s. induction l as [|x l IH]; intros s; simpl.
  - rewrite elem_of_nil. tauto.
  - rewrite IH, elem_of_union, elem_of_singleton, elem_of_cons. tauto.
Qed.

Lemma elem_of_add_range (s : gset Z) (lo hi z : Z) :
  z ∈ add_range s (lo, hi) <-> z ∈ s \/ (lo <= z <= hi)%Z.
Proof.
  unfold add_range. rewrite elem_of_foldl_add, elem_of_seqZ.
  split; (intros [H|H]; [now left | right; lia]).
Qed.

Lemma elem_of_foldl_add_range (ranges : list Range) (s : gset Z) (z : Z) :
  z ∈ foldl add_range s ranges
  <-> z ∈ s \/ exists lo hi, (lo, hi) ∈ ranges /\ (lo <= z <= hi)%Z.
Proof.
  revert s. induction ranges as [|[lo hi] ranges IH]; intros s; cbn [foldl].
  - split; [now left|]. intros [H|(lo & hi & H & _)]; [exact H|].
    now apply elem_of_nil in H.
  - rewrite IH, elem_of_add_range. split.
    + intros [[H|H]|(lo' & hi' & Hin & H)].
      * now left.
      * right. exists lo, hi. split; [apply list_elem_of_here | exact H].
      * right. exists lo', hi'. split; [now apply list_elem_of_further | exact H].
    + intros [H|(lo' & hi' & Hin & H)]; [now left; left|].
      apply elem_of_cons in Hin as [Heq|Hin].
      * injection Heq as -> ->. left. now right.
      * right. eauto.
Qed.

Lemma toLowerCase_ascii_idem (c : ascii) :
  toLowerCase_ascii (toLowerCase_ascii c) = toLowerCase_ascii c.
Proof. destruct c as [[] [] [] [] [] [] [] []]; reflexivity. Qed.

Lemma toLowerCase_idem (s : string) : toLowerCase (toLowerCase s) = toLowerCase s.
Proof.
  induction s as [|c r IH]; simpl; [reflexivity|].
  now rewrite toLowerCase_ascii_idem, IH.
Qed.

Lemma symbols_NoDup : NoDup (map Element.symbol ALL_ELEMENTS).
Proof. apply (bool_decide_unpack _). vm_compute. exact I. Qed.

Lemma NoDup_map_inj {A B} (f : A -> B) (l : list A) (x y : A) :
  NoDup (map f l) -> x ∈ l -> y ∈ l -> f x = f y -> x = y.
Proof.
  induction l as [|a l IH]; intros Hnd Hx Hy Hf; [now apply elem_of_nil in Hx|].
  cbn [map] in Hnd. apply NoDup_cons in Hnd as [Hnotin Hnd].
  apply elem_of_cons in Hx as [->|Hx]; apply elem_of_cons in Hy as [->|Hy].
  - reflexivity.
  - exfalso. apply Hnotin. rewrite Hf.
    apply list_elem_of_In, in_map. now apply list_elem_of_In.
  - exfalso. apply Hnotin. rewrite <- Hf.
    apply list_elem_of_In, in_map. now apply list_elem_of_In.
  - now apply IH.
Qed.

(** The element found for the symbol of a table entry is that entry. *)
Lemma find_symbol_of_element (el : Element) :
  el ∈ ALL_ELEMENTS ->
  List.find (fun e => bool_decide (Element.symbol e = Element.symbol el)) ALL_ELEMENTS
  = Some el.
Proof.
  intros Hel.
  destruct (find_symbol_Some (Element.symbol el)) as (el' & Hfind & Hel'); [eauto|].
  rewrite Hfind. f_equal.
  apply List.find_some in Hfind as [_ Hsym]. apply bool_decide_eq_true in Hsym.
  now apply (NoDup_map_inj Element.symbol ALL_ELEMENTS el' el symbols_NoDup).
Qed.

Lemma BASIS_SET_RANGES_cases (key : string) (ranges : list Range) :
  BASIS_SET_RANGES !! key = Some ranges ->
  (key, ranges) ∈ [
    ("sto-3g",     [(1, 54)]);
    ("sto-6g",     [(1, 54)]);
    ("3-21g",      [(1, 55)]);
    ("6-31g",      [(1, 36)]);
    ("6-31g*",     [(1, 36)]);
    ("cc-pvdz",    [(1, 18); (20, 36)]);
    ("cc-pvtz",    [(1, 18); (20, 36)]);
    ("def2-svp",   [(1, 86)]);
    ("def2-tzvp",  [(1, 86)]);
    ("dyall-ae4z", [(1, 118)]) ]%Z.
Proof.
  intros H. unfold BASIS_SET_RANGES in H.
  apply elem_of_list_to_map in H; [exact H|].
  apply (bool_decide_unpack _). vm_compute. exact I.
Qed.

Lemma supportedZSet_own (basisSet : string) (ranges : list Range) :
  BASIS_SET_RANGES !! toLowerCase basisSet = Some ranges ->
  supportedZSet basisSet = Return (foldl add_range ∅ ranges).
Proof. intros H. unfold supportedZSet, get. now rewrite H. Qed.

Lemma elem_of_own_ranges (ranges : list Range) (z : Z) :
  z ∈ foldl add_range (∅ : gset Z) ranges
  <-> exists lo hi, (lo, hi) ∈ ranges /\ (lo <= z <= hi)%Z.
Proof.
  rewrite elem_of_foldl_add_range. split.
  - intros [Hempty|Hr]; [now apply elem_of_empty in Hempty | exact Hr].
  - now right.
Qed.

End SupportFacts.

(** X1: for a basis set of the table, [supportedZSet] returns the union
    of its inclusive ranges: an atomic number is in the set exactly when
    it lies between the bounds of one of the ranges. *)
Theorem supportedZSet_union_of_ranges (basisSet : string) (ranges : list Elements.Range) :
  Elements.BASIS_SET_RANGES !! Js.toLowerCase basisSet = Some ranges ->
  exists allowed : gset Z,
    Elements.supportedZSet basisSet = Js.Return allowed
    /\ forall z, z ∈ allowed <-> exists lo hi, (lo, hi) ∈ ranges /\ (lo <= z <= hi)%Z.
Proof.
  intros H. exists (foldl Elements.add_range ∅ ranges).
  split; [now apply supportedZSet_own|].
  intros z. apply elem_of_own_ranges.
Qed.

Lemma supportedZSet_union_of_ranges_witness :
  exists allowed : gset Z,
    Elements.supportedZSet "cc-pVTZ" = Js.Return allowed
    /\ (forall z, z ∈ allowed <->
          exists lo hi, (lo, hi) ∈ [(1, 18); (20, 36)]%Z /\ (lo <= z <= hi)%Z).
Proof.
  apply (supportedZSet_union_of_ranges "cc-pVTZ" [(1, 18); (20, 36)]%Z).
  vm_compute. reflexivity.
Defined.

(** X2: on a row of the builder the dropdown and the validity flag
    agree.  Whenever the set of supported atomic numbers can be computed,
    both the options and the flag are computed too, the flag is true
    exactly when the atom's symbol is the value of one of the options,
    and the value shown by the selector is the atom's symbol when the
    flag is true and the empty string when it is false, hence always
    empty or one of the options. *)
Theorem dropdown_agrees_with_validity (atom : Atom) (basisSet : string) :
  Js.returns (Elements.supportedZSet basisSet) ->
  exists options valid shown,
    AtomInput.elementOptions basisSet = Js.Return options
    /\ AtomInput.symbolValid atom basisSet = Js.Return valid
    /\ AtomInput.selectValue atom basisSet = Js.Return shown
    /\ (valid = true <-> Atom.symbol atom ∈ map SelectOption.value options)
    /\ (valid = true -> shown = Atom.symbol atom)
    /\ (valid = false -> shown = EmptyString)
    /\ (shown = EmptyString \/ shown ∈ map SelectOption.value options).
Proof.
  intros (allowed & Hallowed).
  unfold AtomInput.elementOptions, AtomInput.selectValue, AtomInput.symbolValid,
    Elements.getElementsForBasisSet, Elements.isElementSupported.
  rewrite Hallowed. cbn [mbind completion_bind Js.bind].
  set (keep := fun e : Element => bool_decide (Element.atomic_number e ∈ allowed)).
  assert (Hopt : forall sym,
            sym ∈ map SelectOption.value
                    (map (fun el => SelectOption.mk (Element.symbol el)
                            (Element.symbol el ++ " - " ++ Element.name el)%string)
                         (List.filter keep Elements.ALL_ELEMENTS))
            <-> exists el, el ∈ Elements.ALL_ELEMENTS /\ keep el = true
                           /\ Element.symbol el = sym).
  { intros sym. rewrite map_map. cbn [SelectOption.value].
    rewrite list_elem_of_In, in_map_iff. split.
    - intros (el & Hsym & Hin). apply filter_In in Hin as [Hin Hkeep].
      exists el. apply list_elem_of_In in Hin. auto.
    - intros (el & Hin & Hkeep & Hsym). exists el. split; [exact Hsym|].
      apply filter_In. apply list_elem_of_In in Hin. auto. }
  destruct (List.find (fun e => bool_decide (Element.symbol e = Atom.symbol atom))
              Elements.ALL_ELEMENTS) as [el|] eqn:Hfind.
  - pose proof Hfind as Hfound. apply List.find_some in Hfound as [Hin Hsym].
    apply bool_decide_eq_true in Hsym. apply list_elem_of_In in Hin.
    cbn [Js.bind]. fold (keep el).
    assert (Hiff : keep el = true
                   <-> Atom.symbol atom ∈ map SelectOption.value
                         (map (fun el => SelectOption.mk (Element.symbol el)
                                 (Element.symbol el ++ " - " ++ Element.name el)%string)
                              (List.filter keep Elements.ALL_ELEMENTS))).
    { rewrite Hopt. split.
      - intros Hkeep. exists el. auto.
      - intros (el' & Hin' & Hkeep' & Hsym').
        assert (el' = el) as <-; [|exact Hkeep'].
        apply (NoDup_map_inj Element.symbol Elements.ALL_ELEMENTS el' el symbols_NoDup);
          [exact Hin' | exact Hin | congruence]. }
    eexists _, (keep el), _.
    split; [reflexivity|]. split; [reflexivity|]. split; [reflexivity|].
    split; [exact Hiff|]. split; [intros ->; reflexivity|].
    split; [intros ->; reflexivity|].
    destruct (keep el) eqn:Hkeep; [right; now apply Hiff | now left].
  - cbn [Js.bind]. eexists _, false, _.
    split; [reflexivity|]. split; [reflexivity|]. split; [reflexivity|].
    split; [|split; [discriminate|split; [reflexivity|now left]]].
    split; [discriminate|].
    intros Hin. apply Hopt in Hin as (el & Hin & _ & Hsym). exfalso.
    pose proof (List.find_none _ _ Hfind el) as Hnone.
    rewrite bool_decide_eq_false in Hnone. apply Hnone; [|exact Hsym].
    now apply list_elem_of_In.
Qed.

Lemma dropdown_agrees_with_validity_witness :
  exists options,
    AtomInput.elementOptions "cc-pvdz" = Js.Return options
    /\ AtomInput.symbolValid (Atom.mk "K" (0, 0, 0)%float) "cc-pvdz" = Js.Return false
    /\ AtomInput.selectValue (Atom.mk "K" (0, 0, 0)%float) "cc-pvdz" = Js.Return EmptyString
    /\ ~ "K" ∈ map SelectOption.value options.
Proof.
  destruct (dropdown_agrees_with_validity (Atom.mk "K" (0, 0, 0)%float) "cc-pvdz")
    as (options & valid & shown & Hopt & Hvalid & Hshown & Hiff & _ & Hempty & _).
  - eexists. vm_compute. reflexivity.
  - exists options. split; [exact Hopt|].
    assert (Hv : valid = false).
    { vm_compute in Hvalid. now injection Hvalid as <-. }
    subst valid. split; [exact Hvalid|]. split.
    + rewrite Hshown. f_equal. now apply Hempty.
    + intros Hin. apply Hiff in Hin. discriminate.
Defined.

(** X3: basis-set names are case-insensitive.  Two names with the same
    lower-case form get the same set of atomic numbers, the same dropdown
    and the same verdict for every symbol; in particular a name and its
    lower-case form do. *)
Theorem basis_set_case_insensitive (a b symbol : string) :
  Js.toLowerCase a = Js.toLowerCase b ->
  Elements.supportedZSet a = Elements.supportedZSet b
  /\ Elements.getElementsForBasisSet a = Elements.getElementsForBasisSet b
  /\ Elements.isElementSupported symbol a = Elements.isElementSupported symbol b
  /\ Elements.supportedZSet (Js.toLowerCase a) = Elements.supportedZSet a.
Proof.
  intros Hab.
  assert (Hset : forall x y, Js.toLowerCase x = Js.toLowerCase y ->
                   Elements.supportedZSet x = Elements.supportedZSet y).
  { intros x y Hxy. unfold Elements.supportedZSet. now rewrite Hxy. }
  unfold Elements.getElementsForBasisSet, Elements.isElementSupported.
  rewrite (Hset a b Hab). repeat split; try reflexivity.
  apply Hset. rewrite toLowerCase_idem. exact Hab.
Qed.

Lemma basis_set_case_insensitive_witness :
  Elements.isElementSupported "Xe" "STO-3G" = Elements.isElementSupported "Xe" "sto-3g"
  /\ Elements.getElementsForBasisSet "Def2-SVP" = Elements.getElementsForBasisSet "def2-svp".
Proof.
  split.
  - apply (basis_set_case_insensitive "STO-3G" "sto-3g" "Xe"). reflexivity.
  - apply (basis_set_case_insensitive "Def2-SVP" "def2-svp" "Xe"). reflexivity.
Defined.

(** X4: for a basis set of the table every atomic number of its ranges
    names an element of the periodic table and the ranges do not overlap,
    so the dropdown offers as many elements as the ranges are wide (54
    for sto-3g and sto-6g, 55 for 3-21g, 36 for 6-31g and 6-31g*, 35 for
    cc-pvdz and cc-pvtz, 86 for def2-svp and def2-tzvp, 118 for
    dyall-ae4z), in the order of the periodic table. *)
Theorem dropdown_size_is_range_width (basisSet : string) (ranges : list Elements.Range) :
  Elements.BASIS_SET_RANGES !! Js.toLowerCase basisSet = Some ranges ->
  exists elements,
    Elements.getElementsForBasisSet basisSet = Js.Return elements
    /\ Z.of_nat (length elements) = range_width ranges
    /\ (forall el, el ∈ elements <->
          el ∈ Elements.ALL_ELEMENTS
          /\ exists lo hi, (lo, hi) ∈ ranges
                           /\ (lo <= Element.atomic_number el <= hi)%Z)
    /\ elements `sublist_of` Elements.ALL_ELEMENTS.
Proof.
  intros H.
  unfold Elements.getElementsForBasisSet. rewrite (supportedZSet_own basisSet ranges H).
  cbn [mbind completion_bind Js.bind]. eexists. split; [reflexivity|].
  split; [|split].
  - apply BASIS_SET_RANGES_cases in H.
    repeat (apply elem_of_cons in H as [H|H];
            [injection H as _ ->; vm_compute; reflexivity|]).
    now apply elem_of_nil in H.
  - intros el. rewrite list_elem_of_In, filter_In, <- list_elem_of_In.
    rewrite bool_decide_eq_true, elem_of_own_ranges. reflexivity.
  - clear. induction Elements.ALL_ELEMENTS as [|e l IH]; simpl; [constructor|].
    destruct (bool_decide _); [now apply sublist_skip | now apply sublist_cons].
Qed.

Lemma dropdown_size_is_range_width_witness :
  exists elements,
    Elements.getElementsForBasisSet "cc-pVDZ" = Js.Return elements
    /\ length elements = 35%nat.
Proof.
  destruct (dropdown_size_is_range_width "cc-pVDZ" [(1, 18); (20, 36)]%Z)
    as (elements & Hret & Hlen & _).
  - vm_compute. reflexivity.
  - exists elements. split; [exact Hret|].
    apply Nat2Z.inj. rewrite Hlen. reflexivity.
Defined.

(** X5: a basis-set name that is neither in the table nor, in lower
    case, "constructor" or "__proto__" falls back to the whole periodic
    table: the allowed atomic numbers are exactly 1 to 118, the dropdown
    lists all elements, and every symbol of the table is supported. *)
Theorem unknown_basis_set_allows_all (basisSet : string) :
  Elements.BASIS_SET_RANGES !! Js.toLowerCase basisSet = None ->
  Js.toLowerCase basisSet <> "constructor" ->
  Js.toLowerCase basisSet <> "__proto__" ->
  (exists allowed : gset Z,
     Elements.supportedZSet basisSet = Js.Return allowed
     /\ forall z, z ∈ allowed <-> (1 <= z <= 118)%Z)
  /\ Elements.getElementsForBasisSet basisSet = Js.Return Elements.ALL_ELEMENTS
  /\ (forall el, el ∈ Elements.ALL_ELEMENTS ->
        Elements.isElementSupported (Element.symbol el) basisSet = Js.Return true).
Proof.
  intros Hnone Hc Hp.
  assert (Hundef : Elements.get Elements.BASIS_SET_RANGES (Js.toLowerCase basisSet)
                   = Elements.Undefined).
  { destruct (get_lowercase_cases basisSet) as [H | [(ranges & H) | [H | H]]];
      [exact H | | contradiction | contradiction].
    exfalso. unfold Elements.get in H. rewrite Hnone in H. revert H.
    unfold Elements.Object_prototype. repeat case_bool_decide; discriminate. }
  split; [|split].
  - eexists. split; [now apply supportedZSet_fallback|].
    intros z. rewrite elem_of_list_to_set.
    replace (map Element.atomic_number Elements.ALL_ELEMENTS) with (seqZ 1 118)
      by (vm_compute; reflexivity).
    rewrite elem_of_seqZ. lia.
  - now apply getElementsForBasisSet_fallback.
  - intros el Hel. apply isElementSupported_fallback; eauto.
Qed.

Lemma unknown_basis_set_allows_all_witness :
  Elements.getElementsForBasisSet "aug-cc-pVQZ" = Js.Return Elements.ALL_ELEMENTS
  /\ Elements.isElementSupported "Og" "aug-cc-pVQZ" = Js.Return true.
Proof.
  destruct (unknown_basis_set_allows_all "aug-cc-pVQZ") as (_ & Hall & Hsym).
  - vm_compute. reflexivity.
  - vm_compute. discriminate.
  - vm_compute. discriminate.
  - split; [exact Hall|].
    apply (Hsym (Element.mk 118 "Og" "Oganesson")).
    unfold Elements.ALL_ELEMENTS. apply list_elem_of_In. in_list.
Defined.

(** X6: [supportedZSet] throws exactly for the two names whose
    lower-case form is "constructor" or "__proto__"; [getElementsForBasisSet]
    throws for the same names, and [isElementSupported] throws for them
    exactly when the symbol names an element. *)
Theorem supportedZSet_throws_iff (symbol basisSet : string) :
  let inherited := Js.toLowerCase basisSet = "constructor"
                   \/ Js.toLowerCase basisSet = "__proto__" in
  ((exists e, Elements.supportedZSet basisSet = Js.Throw e) <-> inherited)
  /\ ((exists e, Elements.getElementsForBasisSet basisSet = Js.Throw e) <-> inherited)
  /\ ((exists e, Elements.isElementSupported symbol basisSet = Js.Throw e)
      <-> inherited /\ exists el, el ∈ Elements.ALL_ELEMENTS /\ Element.symbol el = symbol).
Proof.
  intros inherited.
  assert (Hset : (exists e, Elements.supportedZSet basisSet = Js.Throw e) <-> inherited).
  { unfold inherited, Elements.supportedZSet. split.
    - intros (e & He).
      destruct (get_lowercase_cases basisSet) as [H | [(ranges & H) | H]];
        [rewrite H in He; discriminate | rewrite H in He; discriminate | exact H].
    - intros [H|H]; rewrite H; eexists; vm_compute; reflexivity. }
  split; [exact Hset|]. split.
  - rewrite <- Hset. unfold Elements.getElementsForBasisSet.
    destruct (Elements.supportedZSet basisSet) as [allowed|e];
      cbn [mbind completion_bind Js.bind]; split; intros (e' & He'); try discriminate; eauto.
  - rewrite <- Hset. unfold Elements.isElementSupported.
    destruct (List.find (fun e => bool_decide (Element.symbol e = symbol))
                Elements.ALL_ELEMENTS) as [el|] eqn:Hfind.
    + apply List.find_some in Hfind as [Hin Hsym].
      apply bool_decide_eq_true in Hsym. apply list_elem_of_In in Hin.
      destruct (Elements.supportedZSet basisSet) as [allowed|e];
        cbn [mbind completion_bind Js.bind]; split.
      * intros (e' & He'). discriminate.
      * intros [(e' & He') _]. discriminate.
      * intros _. split; eauto.
      * intros _. eauto.
    + split; [intros (e & He); discriminate|].
      intros (_ & el & Hin & Hsym). exfalso.
      pose proof (List.find_none _ _ Hfind el) as Hnone.
      rewrite bool_decide_eq_false in Hnone. apply Hnone; [|exact Hsym].
      now apply list_elem_of_In.
Qed.

(** ** Editing the atoms of a molecule *)

Section BuilderFacts.
Import Js MoleculeBuilder.

Lemma with_atoms_same (m : Molecule) : with_atoms m (Molecule.atoms m) = m.
Proof. now destruct m. Qed.

Lemma delete_out_of_range {A} (l : list A) (i : nat) :
  (length l <= i)%nat -> delete i l = l.
Proof.
  revert i. induction l as [|x l IH]; intros i Hi; [now destruct i|].
  destruct i as [|i]; simpl in *; [lia|]. f_equal. apply IH. lia.
Qed.

Lemma filterM_last {A} (f : A -> completion bool) (l : list A) (x : A) :
  f x = Return false -> filterM f (l ++ [x]) = filterM f l.
Proof.
  intros Hx. induction l as [|a l IH]; simpl.
  - now rewrite Hx.
  - now rewrite IH.
Qed.

Lemma filterM_returns {A} (f : A -> completion bool) (l : list A) :
  (forall x, x ∈ l -> returns (f x)) ->
  exists kept, filterM f l = Return kept
               /\ forall x, x ∈ kept <-> x ∈ l /\ f x = Return true.
Proof.
  induction l as [|a l IH]; intros Hret.
  - exists []. split; [reflexivity|]. intros x. split.
    + intros H. now apply elem_of_nil in H.
    + intros [H _]. exact H.
  - destruct IH as (kept & Hkept & Hmem).
    { intros x Hx. apply Hret. now apply list_elem_of_further. }
    destruct (Hret a (list_elem_of_here a l)) as (keep & Ha).
    cbn [filterM]. rewrite Ha, Hkept. cbn [bind]. eexists. split; [reflexivity|].
    intros x. destruct keep.
    + rewrite !elem_of_cons, Hmem. split.
      * intros [->|[Hx Hf]]; auto.
      * intros [[->|Hx] Hf]; auto.
    + rewrite elem_of_cons, Hmem. split.
      * intros [Hx Hf]; auto.
      * intros [[->|Hx] Hf]; [congruence | auto].
Qed.

Lemma Set_values_acc {A} `{EqDecision A} (l acc : list A) :
  NoDup acc ->
  let r := foldl (fun acc x => if bool_decide (x ∈ acc) then acc else (acc ++ [x])%list) acc l in
  NoDup r /\ forall x, x ∈ r <-> x ∈ acc \/ x ∈ l.
Proof.
  revert acc. induction l as [|a l IH]; intros acc Hnd; cbn [foldl].
  - split; [exact Hnd|]. intros x. rewrite elem_of_nil. tauto.
  - case_bool_decide as Ha.
    + destruct (IH acc Hnd) as [Hr Hmem]. split; [exact Hr|].
      intros x. rewrite Hmem, elem_of_cons. split; [tauto|].
      intros [Hx|[->|Hx]]; auto.
    + destruct (IH (acc ++ [a])%list) as [Hr Hmem].
      { apply NoDup_app. split; [exact Hnd|]. split; [|apply NoDup_singleton].
        intros x Hx Hxa. apply list_elem_of_singleton in Hxa as ->. contradiction. }
      split; [exact Hr|]. intros x.
      rewrite Hmem, elem_of_app, list_elem_of_singleton, elem_of_cons. tauto.
Qed.

Lemma Set_values_spec {A} `{EqDecision A} (l : list A) :
  NoDup (Set_values l) /\ forall x, x ∈ Set_values l <-> x ∈ l.
Proof.
  destruct (Set_values_acc l [] (NoDup_nil_2 (A:=A))) as [Hnd Hmem].
  split; [exact Hnd|]. intros x. unfold Set_values. rewrite Hmem, elem_of_nil. tauto.
Qed.

Lemma isElementSupported_returns_of_set (symbol basisSet : string) :
  returns (Elements.supportedZSet basisSet) ->
  returns (Elements.isElementSupported symbol basisSet).
Proof.
  intros (allowed & Hset). unfold Elements.isElementSupported, returns.
  destruct (List.find (fun e => bool_decide (Element.symbol e = symbol))
              Elements.ALL_ELEMENTS); [|eauto].
  rewrite Hset. cbn. eauto.
Qed.

End BuilderFacts.

(** X7: [handleRemoveAtom] removes the row at the given index and
    nothing else: the rows before it stay in place, the rows after it
    move up by one, name, charge, multiplicity and basis set are kept, and
    an index past the end leaves the molecule as it is. *)
Theorem handleRemoveAtom_removes_one_row (m : Molecule) (index : nat) :
  let m' := MoleculeBuilder.handleRemoveAtom m index in
  (forall i, (i < index)%nat -> Molecule.atoms m' !! i = Molecule.atoms m !! i)
  /\ (forall i, (index <= i)%nat -> Molecule.atoms m' !! i = Molecule.atoms m !! S i)
  /\ Molecule.name m' = Molecule.name m
  /\ Molecule.charge m' = Molecule.charge m
  /\ Molecule.multiplicity m' = Molecule.multiplicity m
  /\ Molecule.basis_set m' = Molecule.basis_set m
  /\ ((index < length (Molecule.atoms m))%nat ->
        S (length (Molecule.atoms m')) = length (Molecule.atoms m))
  /\ ((length (Molecule.atoms m) <= index)%nat -> m' = m).
Proof.
  intros m'. subst m'. unfold MoleculeBuilder.handleRemoveAtom.
  rewrite filter_index_delete. cbn [MoleculeBuilder.with_atoms Molecule.atoms
    Molecule.name Molecule.charge Molecule.multiplicity Molecule.basis_set].
  repeat split.
  - intros i Hi. now apply list_lookup_delete_lt.
  - intros i Hi. now apply list_lookup_delete_ge.
  - intros Hlt. rewrite length_delete by now apply lookup_lt_is_Some. lia.
  - intros Hge. rewrite delete_out_of_range by exact Hge. apply with_atoms_same.
Qed.

Lemma handleRemoveAtom_removes_one_row_witness :
  let a := Atom.mk "O" (0, 0, 0)%float in
  let b := Atom.mk "H" (0, 0, 1)%float in
  let c := Atom.mk "H" (0, 1, 0)%float in
  let m := Molecule.mk "water" [a; b; c] 0 1 "sto-3g" in
  Molecule.atoms (MoleculeBuilder.handleRemoveAtom m 1) !! 1%nat = Some c
  /\ length (Molecule.atoms (MoleculeBuilder.handleRemoveAtom m 1)) = 2%nat
  /\ MoleculeBuilder.handleRemoveAtom m 3 = m.
Proof.
  intros a b c m.
  pose proof (handleRemoveAtom_removes_one_row m 1) as H1. cbv zeta in H1.
  pose proof (handleRemoveAtom_removes_one_row m 3) as H3. cbv zeta in H3.
  destruct H1 as (_ & Hafter & _ & _ & _ & _ & Hlen & _).
  destruct H3 as (_ & _ & _ & _ & _ & _ & _ & Hout).
  split; [|split].
  - transitivity (Molecule.atoms m !! 2%nat); [apply (Hafter 1%nat); lia | reflexivity].
  - apply eq_add_S. transitivity (length (Molecule.atoms m));
      [apply Hlen; simpl; lia | reflexivity].
  - apply Hout. simpl. lia.
Defined.

(** X8: adding an atom and then removing the new last row gives back the
    molecule; the added row is a hydrogen atom at the origin and the rows
    that were there are not touched. *)
Theorem add_then_remove_last (m : Molecule) :
  MoleculeBuilder.handleRemoveAtom (MoleculeBuilder.handleAddAtom m)
    (length (Molecule.atoms m)) = m
  /\ Molecule.atoms (MoleculeBuilder.handleAddAtom m) !! length (Molecule.atoms m)
     = Some (Atom.mk "H" (0, 0, 0)%float)
  /\ (forall i, (i < length (Molecule.atoms m))%nat ->
        Molecule.atoms (MoleculeBuilder.handleAddAtom m) !! i = Molecule.atoms m !! i).
Proof.
  unfold MoleculeBuilder.handleRemoveAtom, MoleculeBuilder.handleAddAtom.
  rewrite filter_index_delete. cbn [MoleculeBuilder.with_atoms Molecule.atoms
    Molecule.name Molecule.charge Molecule.multiplicity Molecule.basis_set].
  split; [|split].
  - rewrite delete_middle, app_nil_r. now destruct m.
  - rewrite lookup_app_r by apply Nat.le_refl. now rewrite Nat.sub_diag.
  - intros i Hi. now apply lookup_app_l.
Qed.

Lemma add_then_remove_last_witness :
  let m := SimulationPage.DEFAULT_MOLECULE in
  MoleculeBuilder.handleRemoveAtom (MoleculeBuilder.handleAddAtom m) 2 = m
  /\ Molecule.atoms (MoleculeBuilder.handleAddAtom m) !! 1%nat
     = Some (Atom.mk "H" (0, 0, 0.69)%float).
Proof.
  intros m.
  destruct (add_then_remove_last m) as (Hback & _ & Hrows).
  split; [exact Hback|].
  transitivity (Molecule.atoms m !! 1%nat); [apply Hrows; simpl; lia | reflexivity].
Defined.

(** X9: choosing another element on a row changes the symbol of that row
    only: its position is kept, the other rows, the number of rows and the
    other fields of the molecule are unchanged. *)
Theorem symbol_change_is_local (m : Molecule) (index : nat) (atom : Atom) (value : string) :
  Molecule.atoms m !! index = Some atom ->
  let '(i, changed) := AtomInput.handleSymbolChange atom index value in
  let m' := MoleculeBuilder.handleAtomChange m i changed in
  Molecule.atoms m' !! index = Some (Atom.mk value (Atom.position atom))
  /\ (forall j, j <> index -> Molecule.atoms m' !! j = Molecule.atoms m !! j)
  /\ length (Molecule.atoms m') = length (Molecule.atoms m)
  /\ MoleculeBuilder.with_atoms m' (Molecule.atoms m) = m.
Proof.
  intros Hrow. cbn [AtomInput.handleSymbolChange].
  unfold MoleculeBuilder.handleAtomChange.
  cbn [MoleculeBuilder.with_atoms Molecule.atoms].
  repeat split.
  - apply list_lookup_insert_eq. now apply lookup_lt_Some in Hrow.
  - intros j Hj. now apply list_lookup_insert_ne.
  - apply length_insert.
  - now destruct m.
Qed.

Lemma symbol_change_is_local_witness :
  let o := Atom.mk "O" (0, 0, 0.12)%float in
  let h := Atom.mk "H" (0, 0.76, -0.48)%float in
  let m := Molecule.mk "water" [o; h] 0 1 "sto-3g" in
  Molecule.atoms (MoleculeBuilder.handleAtomChange m 1 (Atom.mk "F" (Atom.position h)))
  !! 1%nat = Some (Atom.mk "F" (0, 0.76, -0.48)%float).
Proof.
  intros o h m.
  exact (proj1 (symbol_change_is_local m 1 h "F" eq_refl)).
Defined.

(** X10: the selector offers exactly the basis sets of the table of
    ranges, and hydrogen is supported by each of them; so with a basis
    set chosen in the selector the atom appended by [handleAddAtom] is
    never reported invalid: the list of invalid atoms stays the same. *)
Theorem default_atom_always_supported (m : Molecule) :
  (forall key, key ∈ map SelectOption.value MoleculeBuilder.BASIS_SETS
               <-> is_Some (Elements.BASIS_SET_RANGES !! key))
  /\ (Molecule.basis_set m ∈ map SelectOption.value MoleculeBuilder.BASIS_SETS ->
        Elements.isElementSupported (Atom.symbol MoleculeBuilder.DEFAULT_ATOM)
          (Molecule.basis_set m) = Js.Return true
        /\ MoleculeBuilder.invalidAtoms (MoleculeBuilder.handleAddAtom m)
           = MoleculeBuilder.invalidAtoms m).
Proof.
  split.
  - intros key. split.
    + intros Hkey. cbn in Hkey.
      repeat (apply elem_of_cons in Hkey as [->|Hkey]; [eexists; vm_compute; reflexivity|]).
      now apply elem_of_nil in Hkey.
    + intros (ranges & Hkey). apply BASIS_SET_RANGES_cases in Hkey.
      repeat (apply elem_of_cons in Hkey as [Hkey|Hkey];
              [injection Hkey as -> _; cbn; apply list_elem_of_In; in_list|]).
      now apply elem_of_nil in Hkey.
  - intros Hbs.
    assert (HH : Elements.isElementSupported "H" (Molecule.basis_set m) = Js.Return true).
    { cbn in Hbs.
      repeat (apply elem_of_cons in Hbs as [->|Hbs]; [vm_compute; reflexivity|]).
      now apply elem_of_nil in Hbs. }
    split; [exact HH|].
    unfold MoleculeBuilder.invalidAtoms, MoleculeBuilder.handleAddAtom.
    cbn [MoleculeBuilder.with_atoms Molecule.atoms Molecule.basis_set].
    apply filterM_last. cbn [MoleculeBuilder.DEFAULT_ATOM Atom.symbol].
    now rewrite HH.
Qed.

Lemma default_atom_always_supported_witness :
  let m := Molecule.mk "KH" [Atom.mk "K" (0, 0, 0)%float] 0 1 "cc-pvtz" in
  MoleculeBuilder.invalidAtoms (MoleculeBuilder.handleAddAtom m)
  = MoleculeBuilder.invalidAtoms m.
Proof.
  intros m.
  apply (proj2 (default_atom_always_supported m)).
  cbn. apply list_elem_of_In. in_list.
Defined.

(** X11: the banner of the atoms card and the inline warnings of the rows
    agree.  Whenever the set of supported atomic numbers can be computed,
    the invalid atoms are exactly the atoms whose row shows the inline
    warning, the banner is rendered exactly when there is such a row, and
    the banner names each of their symbols once. *)
Theorem banner_agrees_with_rows (m : Molecule) :
  Js.returns (Elements.supportedZSet (Molecule.basis_set m)) ->
  exists invalid shown symbols,
    MoleculeBuilder.invalidAtoms m = Js.Return invalid
    /\ MoleculeBuilder.bannerShown m = Js.Return shown
    /\ MoleculeBuilder.bannerSymbols m = Js.Return symbols
    /\ (forall atom, atom ∈ invalid <->
          atom ∈ Molecule.atoms m
          /\ AtomInput.symbolValid atom (Molecule.basis_set m) = Js.Return false)
    /\ (shown = true <->
          exists atom, atom ∈ Molecule.atoms m
            /\ AtomInput.symbolValid atom (Molecule.basis_set m) = Js.Return false)
    /\ NoDup symbols
    /\ (forall s, s ∈ symbols <->
          exists atom, atom ∈ Molecule.atoms m /\ Atom.symbol atom = s
            /\ AtomInput.symbolValid atom (Molecule.basis_set m) = Js.Return false).
Proof.
  intros Hset.
  set (f := fun atom : Atom =>
         supported ← Elements.isElementSupported (Atom.symbol atom) (Molecule.basis_set m);
         Js.Return (negb supported)).
  assert (Hf : forall atom, Js.returns (f atom)
                 /\ (f atom = Js.Return true
                     <-> AtomInput.symbolValid atom (Molecule.basis_set m) = Js.Return false)).
  { intros atom. unfold f, AtomInput.symbolValid.
    destruct (isElementSupported_returns_of_set (Atom.symbol atom) _ Hset) as (b & ->).
    cbn. split; [eexists; reflexivity|]. destruct b; cbn; split; congruence. }
  destruct (filterM_returns f (Molecule.atoms m)) as (invalid & Hinv & Hmem).
  { intros atom _. apply Hf. }
  assert (Hmem' : forall atom, atom ∈ invalid <->
            atom ∈ Molecule.atoms m
            /\ AtomInput.symbolValid atom (Molecule.basis_set m) = Js.Return false).
  { intros atom. rewrite Hmem. now rewrite (proj2 (Hf atom)). }
  unfold MoleculeBuilder.bannerShown, MoleculeBuilder.bannerSymbols.
  change (MoleculeBuilder.invalidAtoms m) with (Js.filterM f (Molecule.atoms m)).
  rewrite Hinv.
  cbn [mbind completion_bind Js.bind].
  destruct (Set_values_spec (map Atom.symbol invalid)) as [Hnd Hsym].
  exists invalid, (0 <? length invalid)%nat, (Js.Set_values (map Atom.symbol invalid)).
  split; [reflexivity|]. split; [reflexivity|]. split; [reflexivity|].
  split; [exact Hmem'|]. split; [|split; [exact Hnd|]].
  - split.
    + intros Hshown. apply Nat.ltb_lt in Hshown.
      destruct invalid as [|atom rest]; [simpl in Hshown; lia|].
      exists atom. apply Hmem'. apply list_elem_of_here.
    + intros (atom & Hatom). apply Hmem' in Hatom. apply Nat.ltb_lt.
      destruct invalid; [now apply elem_of_nil in Hatom | simpl; lia].
  - intros s. split.
    + intros Hs. apply Hsym in Hs.
      apply list_elem_of_In, in_map_iff in Hs as (atom & <- & Hin).
      apply list_elem_of_In, Hmem' in Hin as [Hin Hv]. exists atom. auto.
    + intros (atom & Hin & <- & Hv). apply Hsym.
      apply list_elem_of_In, in_map, list_elem_of_In. apply Hmem'. auto.
Qed.

Lemma banner_agrees_with_rows_witness :
  let m := Molecule.mk "KBr" [Atom.mk "K" (0, 0, 0)%float; Atom.mk "Br" (0, 0, 2.82)%float;
                              Atom.mk "K" (0, 0, 5.64)%float] 0 1 "cc-pvdz" in
  exists invalid,
    MoleculeBuilder.invalidAtoms m = Js.Return invalid
    /\ MoleculeBuilder.bannerShown m = Js.Return true
    /\ MoleculeBuilder.bannerText m = Js.Return "K".
Proof.
  intros m.
  destruct (banner_agrees_with_rows m) as (invalid & shown & symbols & Hinv & _).
  - eexists. vm_compute. reflexivity.
  - exists invalid. split; [exact Hinv|]. split; vm_compute; reflexivity.
Defined.

(** X12: editing a coordinate never stores NaN.  [handlePositionChange]
    passes on the same row index and symbol, replaces the coordinate of
    the edited axis by the parsed number, or by 0 when the text does not
    parse (NaN) or parses to 0 or -0, and keeps the other two
    coordinates. *)
Theorem position_change_never_NaN
    (parseFloat : string -> float) (atom : Atom) (index : nat)
    (axis : AtomInput.Axis) (value : string) :
  let '(i, changed) := AtomInput.handlePositionChange parseFloat atom index axis value in
  i = index
  /\ Atom.symbol changed = Atom.symbol atom
  /\ is_nan (AtomInput.coordinate axis (Atom.position changed)) = false
  /\ (is_nan (parseFloat value) = true \/ is_zero (parseFloat value) = true ->
        AtomInput.coordinate axis (Atom.position changed) = 0%float)
  /\ (is_nan (parseFloat value) = false -> is_zero (parseFloat value) = false ->
        AtomInput.coordinate axis (Atom.position changed) = parseFloat value)
  /\ (forall other, other <> axis ->
        AtomInput.coordinate other (Atom.position changed)
        = AtomInput.coordinate other (Atom.position atom)).
Proof.
  unfold AtomInput.handlePositionChange, AtomInput.falsy_number.
  destruct atom as [symbol [[x y] z]]. cbn [Atom.symbol Atom.position].
  split; [reflexivity|]. split; [reflexivity|].
  assert (Hv : is_nan (if is_nan (parseFloat value) || is_zero (parseFloat value)
                       then 0%float else parseFloat value) = false).
  { destruct (is_nan (parseFloat value)) eqn:Hnan; cbn [orb]; [reflexivity|].
    destruct (is_zero (parseFloat value)); [reflexivity | exact Hnan]. }
  split; [destruct axis; exact Hv|].
  split.
  { intros [Hn|Hz].
    - rewrite Hn. destruct axis; reflexivity.
    - rewrite Hz, orb_true_r. destruct axis; reflexivity. }
  split; [intros -> ->; destruct axis; reflexivity|].
  intros other Hother. destruct axis, other; try reflexivity; contradiction.
Qed.

Lemma position_change_never_NaN_witness :
  let parseFloat := fun _ : string => nan in
  let atom := Atom.mk "O" (0, 0.76, -0.48)%float in
  AtomInput.coordinate AtomInput.axis1
    (Atom.position (snd (AtomInput.handlePositionChange parseFloat atom 0
                           AtomInput.axis1 "abc")))
  = 0%float.
Proof.
  intros parseFloat atom.
  pose proof (position_change_never_NaN parseFloat atom 0 AtomInput.axis1 "abc") as H.
  cbv beta iota zeta delta [AtomInput.handlePositionChange] in H.
  destruct H as (_ & _ & _ & Hfalsy & _).
  apply Hfalsy. left. reflexivity.
Defined.

(** ** The flow of the simulation page *)

Section PageFacts.
Import SimulationPage.

Lemma page_events_snoc (p : Page) (es : list event) (e : event) :
  page_events p (es ++ [e]) = page_event (page_events p es) e.
Proof. unfold page_events. now rewrite foldl_app. Qed.

(** The atomic [handleSubmit] is the click followed by the settling. *)
Lemma handleSubmit_split (o : settled CreateJobResponse) (st : State) :
  handleSubmit o st = submit_settled o (submit_click st).
Proof. destruct o; reflexivity. Qed.

Lemma or_default_nonzero (parsed : option Z) (d : Z) :
  d <> 0%Z -> Js.or_default parsed d <> 0%Z.
Proof.
  intros Hd. unfold Js.or_default. destruct parsed as [n|]; [|exact Hd].
  destruct (Z.eqb_spec n 0); [exact Hd | assumption].
Qed.

Lemma request_ok (st : State) :
  sqd_config_ok (sqdConfig st) -> VQEConfig.num_steps (vqeConfig st) <> 0%Z ->
  one_config (request st)
  /\ (forall c, SimulationRequest.sqd_config (request st) = Some c -> sqd_config_ok c)
  /\ (forall c, SimulationRequest.vqe_config (request st) = Some c ->
        VQEConfig.num_steps c <> 0%Z).
Proof.
  intros Hsqd Hvqe. unfold request, one_config.
  destruct (method st); cbn.
  - split; [split; [eauto | reflexivity]|]. split.
    + intros cfg Hcfg. discriminate.
    + intros cfg Hcfg. injection Hcfg as <-. exact Hvqe.
  - split; [split; [eauto | reflexivity]|]. split.
    + intros cfg Hcfg. injection Hcfg as <-. exact Hsqd.
    + intros cfg Hcfg. discriminate.
Qed.

Lemma configure_ok (c : SimulationConfig.event) (st : State) :
  configs_ok st -> configs_ok (configure c st).
Proof.
  intros (Hsqd & Hvqe & Hposted).
  assert (Hp : posted (configure c st) = posted st).
  { destruct c; cbn [configure]; unfold onMethodChange; destruct (method st); cbn;
      try destruct (SQDConfig.use_hardware (sqdConfig st)); reflexivity. }
  assert (Hv : VQEConfig.num_steps (vqeConfig (configure c st)) <> 0%Z).
  { destruct c; cbn [configure]; unfold onMethodChange; destruct (method st); cbn;
      try destruct (SQDConfig.use_hardware (sqdConfig st)); cbn;
      first [exact Hvqe | apply or_default_nonzero; discriminate]. }
  assert (Hs : sqd_config_ok (sqdConfig (configure c st))).
  { destruct Hsqd as (Hkey & H1 & H2 & H3 & H4).
    destruct c; cbn [configure]; unfold onMethodChange; destruct (method st); cbn;
      try destruct (SQDConfig.use_hardware (sqdConfig st)) eqn:Hhw; cbn;
      unfold sqd_config_ok; cbn; rewrite ?Hhw;
      (split; [first [exact Hkey | intros Hf; first [discriminate | auto]]|]);
      repeat split; first [assumption | apply or_default_nonzero; discriminate]. }
  split; [exact Hs|]. split; [exact Hv|]. now rewrite Hp.
Qed.

Lemma page_event_ok (p : Page) (e : event) :
  configs_ok (state p) -> configs_ok (state (page_event p e)).
Proof.
  intros Hok. pose proof Hok as (Hs & Hv & Hp).
  destruct e as [m| |o|c| | |o]; cbn [page_event].
  - destruct (step (state p)); exact Hok.
  - destruct (step (state p)); try exact Hok.
    unfold Button.click. destruct (Button.disabled _ _); exact Hok.
  - destruct (isValidating p); [|exact Hok]. cbn [state].
    unfold handleValidate. destruct o as [r|err]; [|exact (conj Hs (conj Hv Hp))].
    destruct (ValidationResponse.valid r); [|exact (conj Hs (conj Hv Hp))].
    destruct (ValidationResponse.recommended_method r); exact (conj Hs (conj Hv Hp)).
  - destruct (step (state p)); try exact Hok. now apply configure_ok.
  - destruct (step (state p)); exact Hok.
  - destruct (step (state p)); try exact Hok.
    unfold Button.click. destruct (Button.disabled _ _); [exact Hok|].
    cbn [state]. split; [exact Hs|]. split; [exact Hv|].
    intros req Hreq. cbn in Hreq. apply elem_of_cons in Hreq as [->|Hreq];
      [now apply request_ok | now apply Hp].
  - destruct (isCreating p); [|exact Hok]. cbn [state].
    destruct o; exact (conj Hs (conj Hv Hp)).
Qed.

Lemma page_events_ok (es : list event) (p : Page) :
  configs_ok (state p) -> configs_ok (state (page_events p es)).
Proof.
  revert p. induction es as [|e es IH]; intros p Hok; [exact Hok|].
  apply IH. now apply page_event_ok.
Qed.

Lemma initial_ok : configs_ok initial.
Proof.
  unfold configs_ok. split; [|split].
  - unfold sqd_config_ok. cbn. split; [auto|]. repeat split; discriminate.
  - cbn. discriminate.
  - intros req Hreq. cbn in Hreq. now apply elem_of_nil in Hreq.
Qed.

Lemma configure_same (c : SimulationConfig.event) (st : State) :
  step (configure c st) = step st
  /\ posted (configure c st) = posted st
  /\ validationResult (configure c st) = validationResult st
  /\ currentJobId (configure c st) = currentJobId st.
Proof.
  destruct c; cbn [configure]; unfold onMethodChange; destruct (method st); cbn;
    try destruct (SQDConfig.use_hardware (sqdConfig st)); cbn; auto.
Qed.

Lemma flow_weaken (es : list event) (e : event) (p : Page) :
  flow_ok es p -> flow_ok (es ++ [e]) p.
Proof.
  intros (H1 & H2 & H3 & H4). split; [|split; [exact H2|split; [exact H3|exact H4]]].
  intros H. destruct (H1 H) as (r & Hr & Hv). exists r.
  split; [apply elem_of_app; now left | exact Hv].
Qed.

Lemma flow_step (es : list event) (p : Page) (e : event) :
  flow_ok es p -> flow_ok (es ++ [e]) (page_event p e).
Proof.
  intros Hflow. pose proof (flow_weaken es e p Hflow) as Hkeep.
  destruct Hkeep as (H1 & H2 & H3 & H4). cbv zeta in H1, H2, H3, H4.
  destruct p as [st validating creating].
  cbn [state isValidating isCreating] in H1, H2, H3, H4.
  destruct e as [m| |o|c| | |o]; cbn [page_event state isValidating isCreating].
  - (* the molecule is edited *)
    destruct (step st) eqn:Hstep;
      (split; [|split; [|split]]); cbn; rewrite ?Hstep; assumption.
  - (* the validate button is clicked *)
    destruct (step st) eqn:Hstep;
      try ((split; [|split; [|split]]); cbn; rewrite ?Hstep; assumption).
    unfold Button.click, Button.disabled. cbn [orb].
    destruct validating; (split; [|split; [|split]]); cbn; rewrite ?Hstep;
      try assumption; intros Hd; discriminate Hd.
  - (* a validation settles *)
    destruct validating; [|split; [|split; [|split]]; assumption].
    assert (Hnotconfig : step st <> config).
    { intros Hc. destruct (H2 Hc) as [Hd _]. discriminate Hd. }
    unfold handleValidate. destruct o as [r|err].
    + destruct (ValidationResponse.valid r) eqn:Hvalid.
      * assert (Hin : ValidateSettled (Fulfilled r)
                      ∈ (es ++ [ValidateSettled (Fulfilled r)])%list).
        { apply elem_of_app. right. apply list_elem_of_here. }
        destruct (ValidationResponse.recommended_method r);
          (split; [|split; [|split]]); cbn;
          first [ exact H4
                | intros Hd; discriminate Hd
                | intros _; split; [reflexivity | eauto]
                | intros _; eauto ].
      * (split; [|split; [|split]]); cbn.
        -- exact H1.
        -- intros Hc. contradiction.
        -- exact H3.
        -- exact H4.
    + (split; [|split; [|split]]); cbn.
      * exact H1.
      * intros Hc. contradiction.
      * exact H3.
      * exact H4.
  - (* the settings are edited *)
    destruct (step st) eqn:Hstep;
      try ((split; [|split; [|split]]); cbn; rewrite ?Hstep; assumption).
    destruct (configure_same c st) as (Hs & Hp & Hv & Hj).
    unfold flow_ok. cbn [with_state state isValidating isCreating]. cbv zeta.
    rewrite Hs, Hp, Hv, Hj, Hstep.
    exact (conj H1 (conj H2 (conj H3 H4))).
  - (* back to the build step *)
    destruct (step st) eqn:Hstep;
      try ((split; [|split; [|split]]); cbn; rewrite ?Hstep; assumption).
    (split; [|split; [|split]]); cbn.
    + intros _. apply H1. left. discriminate.
    + intros Hd; discriminate Hd.
    + intros Hd; discriminate Hd.
    + exact H4.
  - (* the run button is clicked *)
    destruct (step st) eqn:Hstep;
      try ((split; [|split; [|split]]); cbn; rewrite ?Hstep; assumption).
    unfold Button.click, Button.disabled. cbn [orb].
    destruct creating;
      [(split; [|split; [|split]]); cbn; rewrite ?Hstep; assumption|].
    (split; [|split; [|split]]); cbn; rewrite ?Hstep.
    + intros _. apply H1. left. discriminate.
    + exact H2.
    + intros Hd; discriminate Hd.
    + intros _. discriminate.
  - (* a submission settles *)
    destruct creating; [|split; [|split; [|split]]; assumption].
    pose proof (H4 eq_refl) as Hposted.
    destruct o as [data|err]; (split; [|split; [|split]]); cbn.
    + intros _. apply H1. now right.
    + intros Hd; discriminate Hd.
    + intros _. split; [eauto|]. split; [exact Hposted | reflexivity].
    + intros Hd; discriminate Hd.
    + exact H1.
    + exact H2.
    + intros Hr. destruct (H3 Hr) as (Hid & Hp & Hd). discriminate Hd.
    + intros Hd; discriminate Hd.
Qed.

Lemma flow_events (es : list event) : flow_ok es (page_events initial_page es).
Proof.
  induction es as [|e es IH] using rev_ind.
  - split; [|split; [|split]]; cbn; try (intros Hd; discriminate Hd).
    intros [H|H]; contradiction.
  - rewrite page_events_snoc. now apply flow_step.
Qed.

End PageFacts.

(** X13: the page submits only after a successful validation, and the
    running step is final only when no validation is in flight.  Along
    any sequence of clicks, edits and settling requests from the initial
    page: a request has been posted only if some validation was answered
    with [valid] true; the page is in the config step only while no
    validation is in flight and the stored validation result is valid; in
    the running step a job id is set, a request has been posted and no
    submission is in flight, and if no validation is in flight either
    then no event changes the page any more.  A validation that is still
    in flight does take the page from the running step back to the
    config step when it is answered with [valid] true. *)
Theorem submission_needs_valid_result (es : list SimulationPage.event) :
  let p := SimulationPage.page_events SimulationPage.initial_page es in
  let st := SimulationPage.state p in
  (SimulationPage.posted st <> [] ->
     exists r, SimulationPage.ValidateSettled (Fulfilled r) ∈ es
               /\ ValidationResponse.valid r = true)
  /\ (SimulationPage.step st = SimulationPage.config ->
        SimulationPage.isValidating p = false
        /\ exists r, SimulationPage.validationResult st = Some r
                     /\ ValidationResponse.valid r = true)
  /\ (SimulationPage.step st = SimulationPage.running ->
        is_Some (SimulationPage.currentJobId st)
        /\ SimulationPage.posted st <> []
        /\ SimulationPage.isCreating p = false
        /\ (SimulationPage.isValidating p = false ->
              forall e, SimulationPage.page_event p e = p)
        /\ (SimulationPage.isValidating p = true ->
              forall r, ValidationResponse.valid r = true ->
                SimulationPage.step
                  (SimulationPage.state
                     (SimulationPage.page_event p
                        (SimulationPage.ValidateSettled (Fulfilled r))))
                = SimulationPage.config)).
Proof.
  intros p st. destruct (flow_events es) as (Hhist & Hconfig & Hrun & _).
  fold p in Hhist, Hconfig, Hrun. cbv zeta in Hhist, Hconfig, Hrun.
  fold st in Hhist, Hconfig, Hrun.
  split; [|split].
  - intros Hposted. apply Hhist. now right.
  - exact Hconfig.
  - intros Hstep. destruct (Hrun Hstep) as (Hid & Hposted & Hcreating).
    split; [exact Hid|]. split; [exact Hposted|]. split; [exact Hcreating|]. split.
    + intros Hvalidating e. subst st. destruct p as [s validating creating].
      cbn [SimulationPage.state SimulationPage.isValidating SimulationPage.isCreating] in *.
      subst validating creating.
      destruct e; cbn [SimulationPage.page_event SimulationPage.state
                       SimulationPage.isValidating SimulationPage.isCreating];
        rewrite ?Hstep; reflexivity.
    + intros Hvalidating r Hvalid. cbn [SimulationPage.page_event].
      rewrite Hvalidating. cbn [SimulationPage.state].
      unfold SimulationPage.handleValidate. rewrite Hvalid.
      now destruct (ValidationResponse.recommended_method r).
Qed.

Lemma submission_needs_valid_result_witness :
  let ok := ValidationResponse.mk true "H2" 2 2 4 None None [] (Some vqe) in
  let created := CreateJobResponse.mk "Simulation queued" "job-1" pending
                   "/api/v1/simulations/job-1" in
  let es := [SimulationPage.ClickRun;
             SimulationPage.ClickValidate;
             SimulationPage.ValidateSettled (Fulfilled ok);
             SimulationPage.ClickRun;
             SimulationPage.Back;
             SimulationPage.ClickValidate;
             SimulationPage.RunSettled (Fulfilled created)] in
  let p := SimulationPage.page_events SimulationPage.initial_page es in
  SimulationPage.step (SimulationPage.state p) = SimulationPage.running
  /\ SimulationPage.currentJobId (SimulationPage.state p) = Some "job-1"
  /\ length (SimulationPage.posted (SimulationPage.state p)) = 1%nat
  /\ SimulationPage.isValidating p = true
  /\ SimulationPage.step
       (SimulationPage.state
          (SimulationPage.page_event p (SimulationPage.ValidateSettled (Fulfilled ok))))
     = SimulationPage.config.
Proof.
  intros ok created es p.
  pose proof (submission_needs_valid_result es) as H. cbv zeta in H.
  destruct H as (_ & _ & Hrun).
  destruct (Hrun eq_refl) as (_ & _ & _ & _ & Hback).
  split; [reflexivity|]. split; [reflexivity|]. split; [reflexivity|].
  split; [reflexivity|]. apply Hback; reflexivity.
Defined.

(** X14: every request the page posts is well formed.  Along any
    sequence of user actions from the initial page, a posted request
    carries the configuration of its method and not the other one; an SQD
    configuration sent in simulate mode has no or an empty IBM API key;
    and none of the counts typed by the user (VQE steps, SQD samples,
    iterations, batches and shots) is sent as zero. *)
Theorem posted_requests_well_formed
    (es : list SimulationPage.event) (req : SimulationRequest) :
  req ∈ SimulationPage.posted
          (SimulationPage.state
             (SimulationPage.page_events SimulationPage.initial_page es)) ->
  one_config req
  /\ (forall c, SimulationRequest.sqd_config req = Some c -> sqd_config_ok c)
  /\ (forall c, SimulationRequest.vqe_config req = Some c ->
        VQEConfig.num_steps c <> 0%Z).
Proof.
  intros Hreq.
  destruct (page_events_ok es SimulationPage.initial_page initial_ok) as (_ & _ & Hposted).
  now apply Hposted.
Qed.

Lemma posted_requests_well_formed_witness :
  let ok := ValidationResponse.mk true "H2" 2 2 4 None None [] (Some sqd) in
  let es := [SimulationPage.ClickValidate;
             SimulationPage.ValidateSettled (Fulfilled ok);
             SimulationPage.Configure SimulationConfig.ClickHardware;
             SimulationPage.Configure (SimulationConfig.TypeApiKey "secret");
             SimulationPage.Configure (SimulationConfig.TypeNumShots (Some 0));
             SimulationPage.Configure SimulationConfig.ClickSimulate;
             SimulationPage.ClickRun;
             SimulationPage.Configure SimulationConfig.ClickHardware;
             SimulationPage.RunSettled (Rejected (Js.Error "Network Error"))] in
  exists req c,
    SimulationPage.posted
      (SimulationPage.state (SimulationPage.page_events SimulationPage.initial_page es))
    = [req]
    /\ SimulationRequest.sqd_config req = Some c
    /\ SQDConfig.ibm_api_key c = Some EmptyString
    /\ SQDConfig.num_shots c = 10000%Z
    /\ sqd_config_ok c.
Proof.
  intros ok es. eexists _, _. split; [reflexivity|]. split; [reflexivity|].
  split; [reflexivity|]. split; [reflexivity|].
  eapply (posted_requests_well_formed es).
  - apply list_elem_of_here.
  - reflexivity.
Defined.

(** ** Error messages, status labels and the status card *)

(** X15: the error the response interceptor rejects with never has an
    empty message: it carries the error text of the response body when
    there is one, else the message of the failed request, else the fixed
    text "An error occurred". *)
Theorem interceptor_message_never_empty (response_error : option string) (message : string) :
  let msg := apiClient.interceptor_message response_error message in
  msg <> EmptyString
  /\ (forall s, response_error = Some s -> s <> EmptyString -> msg = s)
  /\ (response_error = None \/ response_error = Some EmptyString ->
        (message <> EmptyString -> msg = message)
        /\ (message = EmptyString -> msg = "An error occurred")).
Proof.
  unfold apiClient.interceptor_message, Js.or_string. split; [|split].
  - destruct response_error as [[|c s]|]; destruct message; discriminate.
  - intros s -> Hs. destruct s; [contradiction | reflexivity].
  - intros [->| ->]; (split; [intros Hm; destruct message; [contradiction|reflexivity]
                             | intros ->; reflexivity]).
Qed.

Lemma interceptor_message_never_empty_witness :
  apiClient.interceptor_message (Some "Job not found") "Request failed with status code 404"
  = "Job not found"
  /\ apiClient.interceptor_message None EmptyString = "An error occurred".
Proof.
  destruct (interceptor_message_never_empty (Some "Job not found")
              "Request failed with status code 404") as (_ & Hbody & _).
  destruct (interceptor_message_never_empty None EmptyString) as (_ & _ & Hnone).
  split.
  - apply Hbody; [reflexivity | discriminate].
  - apply Hnone; [now left | reflexivity].
Defined.

Section FormatFacts.

Lemma toUpperCase_ascii_idem (c : ascii) :
  Js.toUpperCase_ascii (Js.toUpperCase_ascii c) = Js.toUpperCase_ascii c.
Proof. destruct c as [[] [] [] [] [] [] [] []]; reflexivity. Qed.

Lemma toLowerCase_toUpperCase_ascii (c : ascii) :
  Js.toLowerCase_ascii (Js.toUpperCase_ascii c) = Js.toLowerCase_ascii c.
Proof. destruct c as [[] [] [] [] [] [] [] []]; reflexivity. Qed.

Lemma toUpperCase_ascii_spec (c : ascii) :
  is_lower (Js.toUpperCase_ascii c) = false
  /\ (is_lower c = true ->
        Js.is_upper (Js.toUpperCase_ascii c) = true
        /\ (N_of_ascii (Js.toUpperCase_ascii c) + 32 = N_of_ascii c)%N)
  /\ (is_lower c = false -> Js.toUpperCase_ascii c = c).
Proof.
  destruct c as [[] [] [] [] [] [] [] []];
    (split; [reflexivity|]; split; [intros H; first [discriminate H | now split]|];
     intros H; first [discriminate H | reflexivity]).
Qed.

End FormatFacts.

(** X16: [formatStatus] capitalises and does nothing else.  For a
    status that is empty or starts with an ASCII character, the result
    keeps every character after the first; its first character is the
    upper-case letter of the first character when that is a lower-case
    letter (its code is 32 less) and the first character itself
    otherwise, so the result never starts with a lower-case letter.  The
    result has the same length and the same lower-case form, formatting
    twice is the same as formatting once, and the result is empty only
    for the empty status. *)
Theorem formatStatus_capitalises (status : string) :
  ascii_first status ->
  (forall c rest, status = String c rest ->
     exists C, Format.formatStatus status = String C rest
               /\ is_lower C = false
               /\ (is_lower c = true ->
                     Js.is_upper C = true /\ (N_of_ascii C + 32 = N_of_ascii c)%N)
               /\ (is_lower c = false -> C = c))
  /\ String.length (Format.formatStatus status) = String.length status
  /\ Js.toLowerCase (Format.formatStatus status) = Js.toLowerCase status
  /\ Format.formatStatus (Format.formatStatus status) = Format.formatStatus status
  /\ (Format.formatStatus status = EmptyString <-> status = EmptyString).
Proof.
  intros _. split.
  { intros c rest ->. exists (Js.toUpperCase_ascii c).
    split; [reflexivity|]. apply toUpperCase_ascii_spec. }
  destruct status as [|c rest]; cbn.
  - repeat split; reflexivity.
  - rewrite toLowerCase_toUpperCase_ascii, toUpperCase_ascii_idem.
    repeat split; try reflexivity; discriminate.
Qed.

Lemma formatStatus_capitalises_witness :
  Js.toLowerCase (Format.formatStatus (JobStatus_string running)) = "running"
  /\ String.length (Format.formatStatus (JobStatus_string cancelled)) = 9%nat
  /\ exists C, Format.formatStatus (JobStatus_string failed) = String C "ailed"
                /\ (N_of_ascii C + 32 = N_of_ascii "f")%N.
Proof.
  destruct (formatStatus_capitalises (JobStatus_string running)) as (_ & _ & Hlow & _).
  { reflexivity. }
  destruct (formatStatus_capitalises (JobStatus_string cancelled)) as (_ & Hlen & _).
  { reflexivity. }
  destruct (formatStatus_capitalises (JobStatus_string failed)) as (Hfirst & _).
  { reflexivity. }
  destruct (Hfirst "f"%char "ailed" eq_refl) as (C & HC & _ & Hlower & _).
  split; [|split].
  - transitivity (Js.toLowerCase (JobStatus_string running)); [exact Hlow | reflexivity].
  - transitivity (String.length (JobStatus_string cancelled)); [exact Hlen | reflexivity].
  - exists C. split; [exact HC|]. now apply Hlower.
Defined.



(** ** The manual input as a whole *)

Section ManualInputFacts.
Import MoleculeBuilder.

Lemma ui_event_basis_set (m : Molecule) (e : event) :
  Molecule.basis_set (ui_event m e) = Molecule.basis_set m.
Proof.
  destruct e as [|index|index atom]; cbn [ui_event].
  - reflexivity.
  - destruct (index <? length (Molecule.atoms m))%nat; [|reflexivity].
    unfold Button.click. now destruct (Button.disabled _ _).
  - now destruct (index <? length (Molecule.atoms m))%nat.
Qed.

Lemma builder_edit_keeps (m : Molecule) (e : edit) :
  Molecule.basis_set m ∈ map SelectOption.value BASIS_SETS ->
  (0 < length (Molecule.atoms m))%nat ->
  Molecule.basis_set (builder_edit m e) ∈ map SelectOption.value BASIS_SETS
  /\ (0 < length (Molecule.atoms (builder_edit m e)))%nat.
Proof.
  intros Hbs Hlen. destruct e as [value|value|e|parsed|parsed]; cbn [builder_edit].
  - now split.
  - case_bool_decide as Hvalue; [|now split]. now split.
  - rewrite ui_event_basis_set. split; [exact Hbs|]. now apply ui_event_nonempty.
  - now split.
  - now split.
Qed.

Lemma builder_edits_keep (es : list edit) (m : Molecule) :
  Molecule.basis_set m ∈ map SelectOption.value BASIS_SETS ->
  (0 < length (Molecule.atoms m))%nat ->
  Molecule.basis_set (builder_edits m es) ∈ map SelectOption.value BASIS_SETS
  /\ (0 < length (Molecule.atoms (builder_edits m es)))%nat.
Proof.
  revert m. induction es as [|e es IH]; intros m Hbs Hlen; [now split|].
  destruct (builder_edit_keeps m e Hbs Hlen) as [Hbs' Hlen']. now apply IH.
Qed.

End ManualInputFacts.

(** X18: typing into the charge and multiplicity inputs never stores NaN
    and never stores a multiplicity of zero: text that does not parse, or
    parses to zero, gives charge 0 and multiplicity 1, any other integer,
    negative ones included, is stored as typed, and no other field of the
    molecule changes. *)
Theorem charge_and_multiplicity_edits (m : Molecule) (parsed : option Z) :
  let mc := MoleculeBuilder.handleChargeChange m parsed in
  let mm := MoleculeBuilder.handleMultiplicityChange m parsed in
  Molecule.multiplicity mm <> 0%Z
  /\ (forall n, parsed = Some n -> n <> 0%Z ->
        Molecule.charge mc = n /\ Molecule.multiplicity mm = n)
  /\ (parsed = None \/ parsed = Some 0%Z ->
        Molecule.charge mc = 0%Z /\ Molecule.multiplicity mm = 1%Z)
  /\ MoleculeBuilder.handleChargeChange mc (Some (Molecule.charge m)) = m
  /\ (Molecule.multiplicity m <> 0%Z ->
        MoleculeBuilder.handleMultiplicityChange mm (Some (Molecule.multiplicity m)) = m).
Proof.
  cbv zeta. unfold MoleculeBuilder.handleChargeChange, MoleculeBuilder.handleMultiplicityChange.
  cbn [Molecule.name Molecule.atoms Molecule.charge Molecule.multiplicity Molecule.basis_set].
  split; [apply or_default_nonzero; discriminate|].
  split; [|split; [|split]].
  - intros n -> Hn. unfold Js.or_default.
    destruct (Z.eqb_spec n 0); [contradiction | now split].
  - intros [->| ->]; now split.
  - unfold Js.or_default at 1. destruct m as [name atoms charge mult bs]. cbn.
    destruct (Z.eqb_spec charge 0) as [->|_]; reflexivity.
  - intros Hm. unfold Js.or_default at 1. destruct m as [name atoms charge mult bs].
    cbn in *. destruct (Z.eqb_spec mult 0); [contradiction | reflexivity].
Qed.

Lemma charge_and_multiplicity_edits_witness :
  let m := SimulationPage.DEFAULT_MOLECULE in
  Molecule.multiplicity (MoleculeBuilder.handleMultiplicityChange m (Some (-3)%Z)) = (-3)%Z
  /\ Molecule.multiplicity (MoleculeBuilder.handleMultiplicityChange m None) = 1%Z
  /\ MoleculeBuilder.handleMultiplicityChange
       (MoleculeBuilder.handleMultiplicityChange m (Some 3%Z)) (Some 1%Z) = m.
Proof.
  intros m.
  pose proof (charge_and_multiplicity_edits m (Some (-3)%Z)) as Hneg. cbv zeta in Hneg.
  pose proof (charge_and_multiplicity_edits m None) as Hnan. cbv zeta in Hnan.
  pose proof (charge_and_multiplicity_edits m (Some 3%Z)) as Hback. cbv zeta in Hback.
  destruct Hneg as (_ & Hneg & _). destruct Hnan as (_ & _ & Hnan & _).
  destruct Hback as (_ & _ & _ & _ & Hback).
  split; [|split].
  - apply (Hneg (-3)%Z); [reflexivity | discriminate].
  - apply Hnan. now left.
  - apply Hback. discriminate.
Defined.

(** X19: the manual input cannot reach a basis set on which the element
    check throws.  Starting from the default molecule of the page, after
    any sequence of edits through the controls of the builder (name,
    basis-set selector, atom rows, charge, multiplicity) the basis set is
    one of the table, there is at least one atom, the list of invalid
    atoms is computed, and on every row the dropdown options and the
    validity flag are computed. *)
Theorem manual_input_never_throws (es : list MoleculeBuilder.edit) :
  let m := MoleculeBuilder.builder_edits SimulationPage.DEFAULT_MOLECULE es in
  is_Some (Elements.BASIS_SET_RANGES !! Molecule.basis_set m)
  /\ Molecule.atoms m <> []
  /\ Js.returns (MoleculeBuilder.invalidAtoms m)
  /\ Js.returns (MoleculeBuilder.bannerText m)
  /\ Js.returns (AtomInput.elementOptions (Molecule.basis_set m))
  /\ (forall atom, Js.returns (AtomInput.symbolValid atom (Molecule.basis_set m))).
Proof.
  intros m.
  destruct (builder_edits_keep es SimulationPage.DEFAULT_MOLECULE) as [Hbs Hlen].
  { cbn. apply list_elem_of_In. in_list. }
  { cbn. lia. }
  fold m in Hbs, Hlen.
  assert (Hkey : is_Some (Elements.BASIS_SET_RANGES !! Molecule.basis_set m)
                 /\ Js.returns (Elements.supportedZSet (Molecule.basis_set m))).
  { cbn in Hbs.
    repeat (apply elem_of_cons in Hbs as [->|Hbs];
            [split; eexists; vm_compute; reflexivity|]).
    now apply elem_of_nil in Hbs. }
  destruct Hkey as [Hkey Hset].
  assert (Hvalid : forall atom,
            Js.returns (AtomInput.symbolValid atom (Molecule.basis_set m))).
  { intros atom. now apply isElementSupported_returns_of_set. }
  destruct (filterM_returns
              (fun atom : Atom =>
                 supported ← Elements.isElementSupported (Atom.symbol atom)
                               (Molecule.basis_set m);
                 Js.Return (negb supported))
              (Molecule.atoms m)) as (invalid & Hinv & _).
  { intros atom _. destruct (Hvalid atom) as (b & Hb).
    unfold AtomInput.symbolValid in Hb. rewrite Hb. eexists. reflexivity. }
  change (MoleculeBuilder.invalidAtoms m = Js.Return invalid) in Hinv.
  split; [exact Hkey|]. split.
  { intros Hnil. rewrite Hnil in Hlen. simpl in Hlen. lia. }
  split; [now exists invalid|]. split.
  { unfold MoleculeBuilder.bannerText, MoleculeBuilder.bannerSymbols.
    rewrite Hinv. eexists. reflexivity. }
  split; [|exact Hvalid].
  destruct Hset as (allowed & Hset).
  unfold AtomInput.elementOptions, Elements.getElementsForBasisSet.
  rewrite Hset. eexists. reflexivity.
Qed.

(** ** Status colours and the results view *)

(** X20: [getStatusColor] gives each of the five job statuses the
    classes of its table entry, and gives every other status that is not
    the name of a property of [Object.prototype] the gray classes of
    cancelled; in both cases the result is a non-empty class string. *)
Theorem getStatusColor_fallback_is_gray (status : string) :
  Elements.Object_prototype status = Elements.Undefined ->
  exists classes,
    Format.getStatusColor status = Format.ClassName classes
    /\ classes <> EmptyString
    /\ (forall s : JobStatus, status = JobStatus_string s ->
          Format.colors !! status = Some classes)
    /\ ((forall s : JobStatus, status <> JobStatus_string s) ->
          Format.getStatusColor status
          = Format.getStatusColor (JobStatus_string cancelled)).
Proof.
  intros Hproto. unfold Format.getStatusColor at 1 2.
  destruct (Format.colors !! status) as [classes|] eqn:Hown.
  - assert (Hcases : (status, classes) ∈ [
              ("pending",   "text-yellow-600 bg-yellow-100");
              ("running",   "text-blue-600 bg-blue-100");
              ("completed", "text-green-600 bg-green-100");
              ("failed",    "text-red-600 bg-red-100");
              ("cancelled", "text-gray-600 bg-gray-100") ]).
    { unfold Format.colors in Hown. apply elem_of_list_to_map in Hown; [exact Hown|].
      apply (bool_decide_unpack _). vm_compute. exact I. }
    exists classes.
    repeat (apply elem_of_cons in Hcases as [Hcases|Hcases];
            [injection Hcases as -> ->;
             split; [reflexivity|]; split; [discriminate|]; split;
             [intros s _; reflexivity
             | intros Hnot;
               first [ now destruct (Hnot pending) | now destruct (Hnot running)
                     | now destruct (Hnot completed) | now destruct (Hnot failed)
                     | now destruct (Hnot cancelled) ] ]|]).
    now apply elem_of_nil in Hcases.
  - rewrite Hproto. exists "text-gray-600 bg-gray-100".
    split; [reflexivity|]. split; [discriminate|]. split.
    + intros s ->. destruct s; vm_compute in Hown; discriminate.
    + intros _. vm_compute. reflexivity.
Qed.

Lemma getStatusColor_fallback_is_gray_witness :
  Format.getStatusColor "queued" = Format.ClassName "text-gray-600 bg-gray-100"
  /\ Format.getStatusColor "failed" = Format.ClassName "text-red-600 bg-red-100".
Proof.
  destruct (getStatusColor_fallback_is_gray "queued" eq_refl)
    as (c1 & Hq & _ & _ & Hgray).
  destruct (getStatusColor_fallback_is_gray "failed" eq_refl)
    as (c2 & Hf & _ & Hown & _).
  split.
  - rewrite Hgray; [reflexivity|]. intros s; destruct s; discriminate.
  - rewrite Hf. f_equal.
    pose proof (Hown failed eq_refl) as H. vm_compute in H. now injection H as <-.
Defined.

(** X21: the results view never shows an empty chart.  When
    [ResultsDisplay] renders the chart for a job, [EnergyChart] does not
    fall back to its placeholder; the chart has one point per entry of
    the energy history, numbered from 1 in order and carrying that
    energy; and the iteration count shown is then at least 1 unless the
    result reports a negative count. *)
Theorem chart_has_one_point_per_energy (job : Job) (history : list float) :
  Job.energy_history job = Some history ->
  ResultsDisplay.chartRendered job = true ->
  EnergyChart.placeholder (Job.energy_history job) = false
  /\ length (EnergyChart.data history) = length history
  /\ (forall i, EnergyChart.data history !! i
                = EnergyChart.mkPoint (Z.of_nat i + 1) <$> history !! i)
  /\ ((forall result, Job.result job = Some result ->
         (0 <= SimulationResult.num_iterations result)%Z) ->
      (1 <= ResultsDisplay.iterations job)%Z).
Proof.
  intros Hhist Hchart. unfold ResultsDisplay.chartRendered in Hchart.
  rewrite Hhist in *. apply Nat.ltb_lt in Hchart. cbn [EnergyChart.placeholder].
  split; [apply Nat.eqb_neq; lia|]. split; [apply length_imap|]. split.
  - intros i. unfold EnergyChart.data.
    apply (list_lookup_imap
             (fun index energy => EnergyChart.mkPoint (Z.of_nat index + 1) energy)).
  - intros Hnonneg. unfold ResultsDisplay.iterations. rewrite Hhist.
    destruct (Job.result job) as [result|].
    + specialize (Hnonneg result eq_refl).
      destruct (Z.eqb_spec (SimulationResult.num_iterations result) 0); lia.
    + cbn. lia.
Qed.

Lemma chart_has_one_point_per_energy_witness :
  let history := [(-1.05)%float; (-1.12)%float; (-1.137)%float] in
  let job := Job.mk "job-1" completed "vqe" "H2" "2024-01-01T00:00:00"
                    (Some "2024-01-01T00:00:01") (Some "2024-01-01T00:00:09") 100
                    "Done" (Some (-1.137)%float) (Some history) None None in
  EnergyChart.data history !! 2%nat = Some (EnergyChart.mkPoint 3 (-1.137)%float)
  /\ (1 <= ResultsDisplay.iterations job)%Z.
Proof.
  intros history job.
  destruct (chart_has_one_point_per_energy job history eq_refl eq_refl)
    as (_ & _ & Hpoint & Hiter).
  split.
  - rewrite Hpoint. reflexivity.
  - apply Hiter. intros result Hresult. discriminate.
Defined.
